(** * Spike backtest: a shallow embedding of the trading simulation

    The repository holds two TypeScript programs: a backtest that replays a
    candle series (detectPriceSpikes / executeTrade) and a live monitor that
    runs the same spike test on the two latest candles.

    Numbers.  A TypeScript [number] is an IEEE 754 binary64 value, and it is
    modelled as one: by the primitive floats of Rocq, whose operations round
    to nearest, overflow to an infinity, underflow to zero, keep the sign of
    zero and yield NaN as those of the program do.  A decimal literal of the
    source stands for the binary64 value nearest to it, here as there.  What
    is proved for all numbers is proved from the specification of these
    operations; what is stated of a given series is computed. *)

From Stdlib Require Import Floats ZArith List String Ascii Bool Lia.
Import ListNotations.

Set Warnings "-inexact-float".

Local Open Scope float_scope.

(** ** Numbers *)

Definition number : Type := float.

Bind Scope float_scope with number.

Definition NaN : number := PrimFloat.nan.
Definition Infinity : number := PrimFloat.infinity.

(** [Math.abs] *)
Definition Math_abs (a : number) : number := PrimFloat.abs a.

(** [a > b] and [a >= b]; like [<] and [<=] they are false when an operand
    is NaN. *)
Definition gtb (a b : number) : bool := b <? a.
Definition geb (a b : number) : bool := b <=? a.

Notation "x >? y" := (gtb x y) (at level 70, no associativity) : float_scope.
Notation "x >=? y" := (geb x y) (at level 70, no associativity) : float_scope.

(** [x || 0] on a possibly missing number: [undefined], [0], [-0] and [NaN]
    are falsy. *)
Definition orZero (x : option number) : number :=
  match x with
  | Some v => if PrimFloat.is_zero v || PrimFloat.is_nan v then 0 else v
  | None => 0
  end.

(** The number a count converts to. *)
Definition ofNat (n : nat) : number :=
  SF2Prim (binary_normalize prec emax (Z.of_nat n) 0 false).

(** ** Dates

    [new Date(t).toISOString()] for an integral time value [t] in
    milliseconds since the epoch: the proleptic Gregorian date in UTC, the
    year in four digits, or in six with a sign outside 0..9999.  A time
    value beyond 8.64e15 in magnitude is an invalid date, and
    [toISOString] throws a RangeError on it ([None]). *)

Definition msPerDay : Z := 86400000.
Definition maxTimeValue : Z := 8640000000000000.

Definition validTime (t : Z) : bool := (Z.abs t <=? maxTimeValue)%Z.

Definition digitChar (d : Z) : ascii := ascii_of_nat (48 + Z.to_nat d).

(** The last [width] decimal digits of [n], zero-padded, in front of [acc]. *)
Fixpoint padDigits (width : nat) (n : Z) (acc : string) : string :=
  match width with
  | O => acc
  | S w => padDigits w (n / 10)%Z (String (digitChar (n mod 10)%Z) acc)
  end.

(** Year, month (1..12) and day (1..31) of a day number counted from
    1970-01-01. *)
Definition civilFromDays (days : Z) : Z * Z * Z :=
  (let z := days + 719468 in
   let era := z / 146097 in
   let doe := z - era * 146097 in
   let yoe := (doe - doe / 1460 + doe / 36524 - doe / 146096) / 365 in
   let doy := doe - (365 * yoe + yoe / 4 - yoe / 100) in
   let mp := (5 * doy + 2) / 153 in
   let d := doy - (153 * mp + 2) / 5 + 1 in
   let m := if mp <? 10 then mp + 3 else mp - 9 in
   let y := yoe + era * 400 + (if m <=? 2 then 1 else 0) in
   (y, m, d))%Z.

Definition yearString (y : Z) : string :=
  if ((0 <=? y) && (y <=? 9999))%Z then padDigits 4 y EmptyString
  else String (if (y <? 0)%Z then "-" else "+")%char (padDigits 6 (Z.abs y) EmptyString).

Definition toISOString (t : Z) : option string :=
  if validTime t then
    let '(y, m, d) := civilFromDays (t / msPerDay)%Z in
    let ms := (t mod msPerDay)%Z in
    Some (yearString y ++ "-" ++ padDigits 2 m ("-" ++ padDigits 2 d
      ("T" ++ padDigits 2 (ms / 3600000)%Z (":" ++ padDigits 2 ((ms / 60000) mod 60)%Z
      (":" ++ padDigits 2 ((ms / 1000) mod 60)%Z ("." ++ padDigits 3 (ms mod 1000)%Z "Z"))))))%string
  else None.

(** [new Date(t).toISOString().slice(0, 7)], the "YYYY-MM" key of a month. *)
Definition monthKey (t : Z) : option string :=
  option_map (substring 0 7) (toISOString t).

(** ** Control

    A thrown exception (reading a field of [undefined], a RangeError of
    [toISOString]) is [None]; nothing in the programs catches one inside
    the functions modelled here. *)

Definition bind {A B : Type} (x : option A) (f : A -> option B) : option B :=
  match x with
  | Some a => f a
  | None => None
  end.

Notation "x <- e ;; k" := (bind e (fun x => k))
  (at level 61, e at next level, right associativity).

(** What a loop body asks for: the next iteration, or [break]. *)
Inductive ctl (S : Type) : Type :=
| Continue (s : S)
| Break (s : S).

Arguments Continue {S} s.
Arguments Break {S} s.

(** [for (let i = lo; i < hi; i++)] visits [range lo hi] in order. *)
Definition range (lo hi : nat) : list nat := seq lo (hi - lo).

Fixpoint forEach {S : Type} (body : nat -> S -> option (ctl S))
    (indices : list nat) (s : S) : option S :=
  match indices with
  | [] => Some s
  | i :: rest =>
      match body i s with
      | None => None
      | Some (Break s') => Some s'
      | Some (Continue s') => forEach body rest s'
      end
  end.

(** [data[i - 1]]: before the first element there is [undefined], and
    reading a field of it throws. *)
Definition before {A : Type} (data : list A) (i : nat) : option A :=
  match i with
  | O => None
  | S j => nth_error data j
  end.

(** ** Data *)

Record OHLCV : Type := {
  timestamp : Z;
  open : number;
  high : number;
  low : number;
  close : number;
  volume : number
}.

(** The object [{ [key: string]: number }], keys in insertion order. *)
Definition MonthlyProfit : Type := list (string * number).

Fixpoint getMonth (m : MonthlyProfit) (key : string) : option number :=
  match m with
  | [] => None
  | (k, v) :: rest => if String.eqb k key then Some v else getMonth rest key
  end.

(** [m[key] = v]: an existing key keeps its place, a new one goes last. *)
Fixpoint setMonth (m : MonthlyProfit) (key : string) (v : number) : MonthlyProfit :=
  match m with
  | [] => [(key, v)]
  | (k, w) :: rest =>
      if String.eqb k key then (k, v) :: rest else (k, w) :: setMonth rest key v
  end.

(** The lines written with [console.log], by template, with the values
    interpolated into them (dates and [toFixed] renderings left as the
    numbers they print). *)
Inductive LogLine : Type :=
| SpikeDetected (isShort : bool) (time : Z) (symbol : string)
    (previousPrice currentPrice : number) (change : number) (vol : number)
| TakeProfitHit (isShort : bool) (time : Z) (entry exit : number) (gain balance : number)
| StopLossHit (isShort : bool) (time : Z) (entry exit : number) (loss balance : number)
| ClosedAtEnd (time : Z) (entry exit : number) (balance : number)
| FinalBalance (symbol : string) (balance : number)
| TotalTrades (symbol : string) (n : nat)
| WinningTrades (symbol : string) (n : nat)
| LosingTrades (symbol : string) (n : nat)
| WinRate (symbol : string) (percent : number)
| MonthlyProfitHeader (symbol : string)
| MonthlyProfitLine (month : string) (amount : number).

(** What the functions share by reference: the [monthlyProfit] object of the
    run and the console. *)
Record World : Type := {
  monthlyProfit : MonthlyProfit;
  console : list LogLine
}.

Definition print (line : LogLine) (w : World) : World :=
  {| monthlyProfit := monthlyProfit w; console := console w ++ [line] |}.

(** [monthlyProfit[month] = (monthlyProfit[month] || 0) + amount] *)
Definition credit (month : string) (amount : number) (w : World) : World :=
  {| monthlyProfit :=
       setMonth (monthlyProfit w) month
         (orZero (getMonth (monthlyProfit w) month) + amount)%float;
     console := console w |}.

(** [monthlyProfit[month] = (monthlyProfit[month] || 0) - amount] *)
Definition debit (month : string) (amount : number) (w : World) : World :=
  {| monthlyProfit :=
       setMonth (monthlyProfit w) month
         (orZero (getMonth (monthlyProfit w) month) - amount)%float;
     console := console w |}.

(** The value [executeTrade] returns. *)
Record TradeResult : Type := {
  balance : number;
  profit : number
}.

(** ** The spike test

    Both programs compare the last close with the one before it in the same
    way (lines 53-58 of the backtest, 99-104 of the monitor):
    [change = (currentPrice - previousPrice) / previousPrice], a signal when
    [Math.abs(change) > threshold], and [isShort = change > 0]. *)

Definition priceChange (previousPrice currentPrice : number) : number :=
  (currentPrice - previousPrice) / previousPrice.

Definition spike (threshold previousPrice currentPrice : number) : option (number * bool) :=
  let change := priceChange previousPrice currentPrice in
  if (Math_abs change >? threshold)%float then Some (change, (change >? 0)%float)
  else None.

(** ** The backtest *)

Module Backtest.

Definition timeframe : string := "5m".
Definition initialBalance : number := 1000.
Definition since : Z := 1704067200000.
Definition threshold : number := 0.01.

(** The locals of [executeTrade] that its loop assigns. *)
Record TradeVars : Type := {
  positionOpened : bool;
  tradeProfit : number;
  tradeBalance : number;
  tradeWorld : World
}.

Local Open Scope float_scope.

Definition targetPrice (isShort : bool) (entryPrice : number) (change : number) : number :=
  if isShort then entryPrice - (change / 2) * entryPrice
  else entryPrice + (change / 2) * entryPrice.

Definition stopLossPrice (isShort : bool) (entryPrice : number) (change : number) : number :=
  if isShort then entryPrice + change * entryPrice
  else entryPrice - change * entryPrice.

(** One iteration of the scan of [executeTrade], at candle [i]. *)
Definition tradeStep (data : list OHLCV) (isShort : bool) (entryPrice : number)
    (target stopLoss : number) (i : nat) (v : TradeVars) : option (ctl TradeVars) :=
  c <- nth_error data i ;;
  let currentPrice := if isShort then low c else high c in
  month <- monthKey (timestamp c) ;;
  if isShort && (currentPrice <=? target) then
    let profit := (entryPrice - currentPrice) / entryPrice * tradeBalance v in
    let currentBalance := tradeBalance v + profit in
    Some (Break {|
      positionOpened := false;
      tradeProfit := profit;
      tradeBalance := currentBalance;
      tradeWorld :=
        print (TakeProfitHit true (timestamp c) entryPrice currentPrice profit currentBalance)
          (credit month profit (tradeWorld v)) |})
  else if negb isShort && (currentPrice >=? target) then
    let profit := (currentPrice - entryPrice) / entryPrice * tradeBalance v in
    let currentBalance := tradeBalance v + profit in
    Some (Break {|
      positionOpened := false;
      tradeProfit := profit;
      tradeBalance := currentBalance;
      tradeWorld :=
        print (TakeProfitHit false (timestamp c) entryPrice currentPrice profit currentBalance)
          (credit month profit (tradeWorld v)) |})
  else if (isShort && (currentPrice >=? stopLoss))
          || (negb isShort && (currentPrice <=? stopLoss)) then
    let profit := Math_abs ((currentPrice - entryPrice) / entryPrice * tradeBalance v) in
    let currentBalance := tradeBalance v - profit in
    Some (Break {|
      positionOpened := false;
      tradeProfit := - profit;
      tradeBalance := currentBalance;
      tradeWorld :=
        print (StopLossHit isShort (timestamp c) entryPrice currentPrice profit currentBalance)
          (debit month profit (tradeWorld v)) |})
  else Some (Continue v).

(** The position still open after the scan is closed at the last close. *)
Definition closeAtEnd (data : list OHLCV) (isShort : bool) (entryPrice : number)
    (v : TradeVars) : option TradeVars :=
  if positionOpened v then
    lastCandle <- nth_error data (List.length data - 1) ;;
    let lastPrice := close lastCandle in
    let lastChange := (lastPrice - entryPrice) / entryPrice * tradeBalance v in
    let profit := if isShort then - lastChange else lastChange in
    let currentBalance := tradeBalance v + profit in
    month <- monthKey (timestamp lastCandle) ;;
    Some {|
      positionOpened := true;
      tradeProfit := profit;
      tradeBalance := currentBalance;
      tradeWorld :=
        print (ClosedAtEnd (timestamp lastCandle) entryPrice lastPrice currentBalance)
          (credit month profit (tradeWorld v)) |}
  else Some v.

Definition executeTrade (data : list OHLCV) (index : nat) (change : number)
    (isShort : bool) (currentBalance : number) (w : World) : option (TradeResult * World) :=
  entry <- nth_error data index ;;
  let entryPrice := close entry in
  let change := Math_abs change in
  let target := targetPrice isShort entryPrice change in
  let stopLoss := stopLossPrice isShort entryPrice change in
  v <- forEach (tradeStep data isShort entryPrice target stopLoss)
         (range (index + 1) (List.length data))
         {| positionOpened := true; tradeProfit := 0;
            tradeBalance := currentBalance; tradeWorld := w |} ;;
  v <- closeAtEnd data isShort entryPrice v ;;
  Some ({| balance := tradeBalance v; profit := tradeProfit v |}, tradeWorld v).

(** The locals of [detectPriceSpikes]; [trades] is a ghost variable: the
    index of each call of [executeTrade] so far and the result it returned,
    oldest first. *)
Record State : Type := {
  currentBalance : number;
  totalTrades : nat;
  winningTrades : nat;
  losingTrades : nat;
  world : World;
  trades : list (nat * TradeResult)
}.

(** One iteration of the loop of [detectPriceSpikes], at index [i]. *)
Definition spikeStep (threshold : number) (data : list OHLCV) (symbol : string)
    (i : nat) (st : State) : option (ctl State) :=
  previous <- before data i ;;
  current <- nth_error data i ;;
  let previousPrice := close previous in
  let currentPrice := close current in
  match spike threshold previousPrice currentPrice with
  | Some (change, isShort) =>
      let w := print (SpikeDetected isShort (timestamp current) symbol
                        previousPrice currentPrice (change * 100) (volume current))
                 (world st) in
      r <- executeTrade data i change isShort (currentBalance st) w ;;
      let result := fst r in
      Some (Continue {|
        currentBalance := balance result;
        totalTrades := S (totalTrades st);
        winningTrades :=
          if profit result >? 0 then S (winningTrades st) else winningTrades st;
        losingTrades :=
          if profit result >? 0 then losingTrades st else S (losingTrades st);
        world := snd r;
        trades := trades st ++ [(i, result)] |})
  | None => Some (Continue st)
  end.

Definition initialState (initialBalance : number) : State :=
  {| currentBalance := initialBalance;
     totalTrades := 0; winningTrades := 0; losingTrades := 0;
     world := {| monthlyProfit := []; console := [] |};
     trades := [] |}.

(** The locals after the iterations at the indices below [n]. *)
Definition spikeLoop (threshold initialBalance : number) (data : list OHLCV)
    (symbol : string) (n : nat) : option State :=
  forEach (spikeStep threshold data symbol) (range 1 n) (initialState initialBalance).

(** The summary printed after the loop. *)
Definition summary (symbol : string) (st : State) : list LogLine :=
  [ FinalBalance symbol (currentBalance st);
    TotalTrades symbol (totalTrades st);
    WinningTrades symbol (winningTrades st);
    LosingTrades symbol (losingTrades st);
    WinRate symbol (ofNat (winningTrades st) / ofNat (totalTrades st) * 100);
    MonthlyProfitHeader symbol ]
  ++ map (fun kv => MonthlyProfitLine (fst kv) (snd kv)) (monthlyProfit (world st)).

(** The function returns nothing; the model returns its locals at the end,
    the console included. *)
Definition detectPriceSpikes (threshold initialBalance : number) (data : list OHLCV)
    (symbol : string) : option State :=
  st <- spikeLoop threshold initialBalance data symbol (List.length data) ;;
  Some {|
    currentBalance := currentBalance st;
    totalTrades := totalTrades st;
    winningTrades := winningTrades st;
    losingTrades := losingTrades st;
    world := {| monthlyProfit := monthlyProfit (world st);
                console := console (world st) ++ summary symbol st |};
    trades := trades st |}.

(** *** Vocabulary of the statements

    The expressions of [executeTrade] by name. *)

(** The price of a candle that the scan compares with target and stop. *)
Definition touchPrice (isShort : bool) (c : OHLCV) : number :=
  if isShort then low c else high c.

Definition targetMet (isShort : bool) (target : number) (c : OHLCV) : bool :=
  if isShort then low c <=? target else high c >=? target.

Definition stopMet (isShort : bool) (stopLoss : number) (c : OHLCV) : bool :=
  if isShort then low c >=? stopLoss else high c <=? stopLoss.

Definition winProfit (isShort : bool) (entryPrice price : number) (bal : number) : number :=
  if isShort then (entryPrice - price) / entryPrice * bal
  else (price - entryPrice) / entryPrice * bal.

Definition lossAmount (entryPrice price : number) (bal : number) : number :=
  Math_abs ((price - entryPrice) / entryPrice * bal).

Definition endProfit (isShort : bool) (entryPrice lastPrice : number) (bal : number) : number :=
  let lastChange := (lastPrice - entryPrice) / entryPrice * bal in
  if isShort then - lastChange else lastChange.

(** The locals after a take-profit, and after a stop-loss, at candle [c]. *)
Definition wonAt (isShort : bool) (entryPrice : number) (c : OHLCV) (month : string)
    (v : TradeVars) : TradeVars :=
  let p := winProfit isShort entryPrice (touchPrice isShort c) (tradeBalance v) in
  {| positionOpened := false;
     tradeProfit := p;
     tradeBalance := tradeBalance v + p;
     tradeWorld :=
       print (TakeProfitHit isShort (timestamp c) entryPrice (touchPrice isShort c) p
                (tradeBalance v + p))
         (credit month p (tradeWorld v)) |}.

Definition lostAt (isShort : bool) (entryPrice : number) (c : OHLCV) (month : string)
    (v : TradeVars) : TradeVars :=
  let l := lossAmount entryPrice (touchPrice isShort c) (tradeBalance v) in
  {| positionOpened := false;
     tradeProfit := - l;
     tradeBalance := tradeBalance v - l;
     tradeWorld :=
       print (StopLossHit isShort (timestamp c) entryPrice (touchPrice isShort c) l
                (tradeBalance v - l))
         (debit month l (tradeWorld v)) |}.

Definition closedAt (isShort : bool) (entryPrice : number) (c : OHLCV) (month : string)
    (v : TradeVars) : TradeVars :=
  let p := endProfit isShort entryPrice (close c) (tradeBalance v) in
  {| positionOpened := true;
     tradeProfit := p;
     tradeBalance := tradeBalance v + p;
     tradeWorld :=
       print (ClosedAtEnd (timestamp c) entryPrice (close c) (tradeBalance v + p))
         (credit month p (tradeWorld v)) |}.

(** Candle [j] is scanned and meets neither the target nor the stop. *)
Definition quiet (data : list OHLCV) (isShort : bool) (target stopLoss : number)
    (j : nat) : Prop :=
  exists c, nth_error data j = Some c /\ monthKey (timestamp c) <> None /\
    targetMet isShort target c = false /\ stopMet isShort stopLoss c = false.

(** How a position opened at [index] with locals [v0] is resolved: at the
    first candle that meets the target or else the stop, or at the end of
    the data. *)
Inductive Resolves (data : list OHLCV) (index : nat) (isShort : bool)
    (entryPrice : number) (target stopLoss : number) (v0 : TradeVars) : TradeVars -> Prop :=
| TargetHit (i : nat) (c : OHLCV) (month : string) :
    (index < i < List.length data)%nat ->
    (forall j, (index < j < i)%nat -> quiet data isShort target stopLoss j) ->
    nth_error data i = Some c -> monthKey (timestamp c) = Some month ->
    targetMet isShort target c = true ->
    Resolves data index isShort entryPrice target stopLoss v0
      (wonAt isShort entryPrice c month v0)
| StopHit (i : nat) (c : OHLCV) (month : string) :
    (index < i < List.length data)%nat ->
    (forall j, (index < j < i)%nat -> quiet data isShort target stopLoss j) ->
    nth_error data i = Some c -> monthKey (timestamp c) = Some month ->
    targetMet isShort target c = false -> stopMet isShort stopLoss c = true ->
    Resolves data index isShort entryPrice target stopLoss v0
      (lostAt isShort entryPrice c month v0)
| EndOfData (c : OHLCV) (month : string) :
    (forall j, (index < j < List.length data)%nat -> quiet data isShort target stopLoss j) ->
    nth_error data (List.length data - 1) = Some c ->
    monthKey (timestamp c) = Some month ->
    Resolves data index isShort entryPrice target stopLoss v0
      (closedAt isShort entryPrice c month v0).

(** The locals of [executeTrade] when its scan starts. *)
Definition openVars (currentBalance : number) (w : World) : TradeVars :=
  {| positionOpened := true; tradeProfit := 0;
     tradeBalance := currentBalance; tradeWorld := w |}.

Definition resultOf (v : TradeVars) : TradeResult * World :=
  ({| balance := tradeBalance v; profit := tradeProfit v |}, tradeWorld v).

(** The locals of [detectPriceSpikes] after the trade opened at [i] returned
    [result] and left the world [w]. *)
Definition recordTrade (i : nat) (result : TradeResult) (w : World) (st : State) : State :=
  {| currentBalance := balance result;
     totalTrades := S (totalTrades st);
     winningTrades :=
       if profit result >? 0 then S (winningTrades st) else winningTrades st;
     losingTrades :=
       if profit result >? 0 then losingTrades st else S (losingTrades st);
     world := w;
     trades := trades st ++ [(i, result)] |}.

(** The line [detectPriceSpikes] prints before it calls [executeTrade]. *)
Definition spikeLine (symbol : string) (previous current : OHLCV) (change : number)
    (isShort : bool) : LogLine :=
  SpikeDetected isShort (timestamp current) symbol (close previous) (close current)
    (change * 100) (volume current).

(** The profits of the recorded trades added to a number one after
    another, oldest first: [((start + p1) + p2) + ...]. *)
Definition addProfits (start : number) (l : list (nat * TradeResult)) : number :=
  fold_left (fun acc t => acc + profit (snd t)) l start.

(** The ledger as the program keeps it: the balance is the initial balance
    with the profits recorded so far added to it one after another. *)
Definition ledger (initialBalance : number) (st : State) : Prop :=
  currentBalance st = addProfits initialBalance (trades st).

(** The ledger as the specification words it:
    [balance == initialBalance + sum(all recorded profits)], the sum taken
    first. *)
Definition sumProfits (l : list (nat * TradeResult)) : number := addProfits 0 l.

Definition ledgerBySum (initialBalance : number) (st : State) : bool :=
  currentBalance st =? initialBalance + sumProfits (trades st).

(** Target and stop as the specification words them:
    [entryPrice * (1 -/+ magnitude/2)] and [entryPrice * (1 +/- magnitude)]. *)
Definition specTargetPrice (isShort : bool) (entryPrice magnitude : number) : number :=
  if isShort then entryPrice * (1 - magnitude / 2) else entryPrice * (1 + magnitude / 2).

Definition specStopPrice (isShort : bool) (entryPrice magnitude : number) : number :=
  if isShort then entryPrice * (1 + magnitude) else entryPrice * (1 - magnitude).

(** The spike test at index [i] of a series. *)
Definition spikeAt (threshold : number) (data : list OHLCV) (i : nat) : option (number * bool) :=
  match before data i, nth_error data i with
  | Some previous, Some current => spike threshold (close previous) (close current)
  | _, _ => None
  end.

Definition isSpike (threshold : number) (data : list OHLCV) (i : nat) : bool :=
  match spikeAt threshold data i with Some _ => true | None => false end.

Definition validDates (data : list OHLCV) : Prop :=
  Forall (fun c => validTime (timestamp c) = true) data.

End Backtest.

(** ** Sample series

    Candles five minutes apart from 2024-01-01T00:00:00Z, for the worked
    examples. *)

Definition candle (t : Z) (o h l c : number) : OHLCV :=
  {| timestamp := t; open := o; high := h; low := l; close := c; volume := 1 |}.

(** A candle whose four prices are the same. *)
Definition flat (t : Z) (price : number) : OHLCV := candle t price price price price.

(** Closes 100, 98, 102. *)
Definition scenario1 : list OHLCV :=
  [flat 1704067200000 100; flat 1704067500000 98; flat 1704067800000 102].


(** A rise of 2% opens a Short position at 102, with target 100.98 and stop
    104.04; the next candle, from 100 to 105, spans both. *)
Definition spanning : list OHLCV :=
  [flat 1704067200000 100; flat 1704067500000 102;
   candle 1704067800000 102 105 100 103].


(** A fall to a close of zero, and a rise from a close of zero. *)
Definition toZero : list OHLCV := [flat 1704067200000 1; flat 1704067500000 0].
Definition fromZero : list OHLCV := [flat 1704067200000 0; flat 1704067500000 5].

(** Two rises and a fall: the position opened at index 1 is still open when
    the one at index 2 is opened; both end at index 3. *)
Definition overlapping : list OHLCV :=
  [flat 1704067200000 100; flat 1704067500000 102; flat 1704067800000 103.5;
   flat 1704068100000 100.5].

(** A fall of 2% opens a Long position at 98, and the next candle has its
    high at 96.04. *)
Definition atStop : list OHLCV :=
  [flat 1704067200000 100; flat 1704067500000 98;
   candle 1704067800000 96.04 96.04 96 96].

Definition emptyWorld : World := {| monthlyProfit := []; console := [] |}.

(** ** The constants of the monitor *)

Module Live.

Definition timeframe : string := "5m".
Definition threshold : number := 0.013.
Definition orderAmount : number := 30.
Definition volumeThreshold : number := 10000000.
Definition maxOrders : nat := 10.

End Live.

(** ** Requests to the exchange and to Telegram

    The asynchronous functions await the exchange (ccxt), Telegram and the
    clock.  The state of the world outside the program is a value of a type
    [W]; a service answers a request in a state of the world with a reply,
    fulfilled or rejected, and a next state.  A program threads the state
    and a trace of the requests it has sent; console output is not part of
    the trace. *)

Definition Error : Type := string.

Inductive reply (A : Type) : Type :=
| Fulfilled (a : A)
| Rejected (e : Error).

Arguments Fulfilled {A} a.
Arguments Rejected {A} e.

Inductive Side : Type := Buy | Sell.
Inductive OrderType : Type := Market | Limit.

(** The texts sent to Telegram, by template, with the values interpolated
    into them. *)
Inductive Message : Type :=
| OrderPlaced (symbol : string) (side : Side) (amount : option number) (price : number)
    (takeProfit stopLoss : number) (baseBalance : option number) (baseCurrency : string)
| BracketPlaced (takeProfit stopLoss : number)
| OrderError (symbol : string) (error : Error).

Inductive Event : Type :=
| CreateOrder (symbol : string) (type : OrderType) (side : Side)
    (amount : option number) (price : option number)
| FetchBalance
| FetchTicker (symbol : string)
| FetchOHLCV (symbol timeframe : string) (since : Z) (limit : nat)
| LoadMarkets
| SendTelegram (message : Message).

(** The services: what each request is answered with, and the clock. *)
Record Services (W : Type) : Type := {
  createOrder : string -> OrderType -> Side -> option number -> option number ->
                W -> reply (option number) * W;
  fetchBalance : W -> reply (string -> option number) * W;
  fetchTicker : string -> W -> reply (option number) * W;
  fetchOHLCV : string -> string -> Z -> nat -> W -> reply (list OHLCV) * W;
  loadMarkets : W -> reply (list string) * W;
  post : Message -> W -> reply unit * W;
  now : W -> Z * W
}.

Arguments createOrder {W} _ _ _ _ _ _ _.
Arguments fetchBalance {W} _ _.
Arguments fetchTicker {W} _ _ _.
Arguments fetchOHLCV {W} _ _ _ _ _ _.
Arguments loadMarkets {W} _ _.
Arguments post {W} _ _ _.
Arguments now {W} _ _.

(** How a call ends: it returns, it throws, or the model runs out of fuel
    in a loop that has no bound. *)
Inductive outcome (A : Type) : Type :=
| Returned (a : A)
| Threw (e : Error)
| OutOfFuel.

Arguments Returned {A} a.
Arguments Threw {A} e.
Arguments OutOfFuel {A}.

Record Run (W : Type) : Type := {
  env : W;
  trace : list Event
}.

Arguments env {W} _.
Arguments trace {W} _.

Definition M (W A : Type) : Type := Run W -> outcome A * Run W.

Definition ret {W A : Type} (a : A) : M W A := fun s => (Returned a, s).

Definition throw {W A : Type} (e : Error) : M W A := fun s => (Threw e, s).

Definition bindM {W A B : Type} (m : M W A) (f : A -> M W B) : M W B :=
  fun s =>
    match m s with
    | (Returned a, s') => f a s'
    | (Threw e, s') => (Threw e, s')
    | (OutOfFuel, s') => (OutOfFuel, s')
    end.

Notation "x <~ e ;; k" := (bindM e (fun x => k))
  (at level 61, e at next level, right associativity).

(** [try { m } catch (error) { handler }] *)
Definition tryCatch {W A : Type} (m : M W A) (handler : Error -> M W A) : M W A :=
  fun s =>
    match m s with
    | (Threw e, s') => handler e s'
    | r => r
    end.

(** [await] of a request: the request joins the trace, the world moves on,
    and a rejection is thrown. *)
Definition await {W A : Type} (ev : Event) (service : W -> reply A * W) : M W A :=
  fun s =>
    let (r, w) := service (env s) in
    let s' := {| env := w; trace := trace s ++ [ev] |} in
    match r with
    | Fulfilled a => (Returned a, s')
    | Rejected e => (Threw e, s')
    end.

(** [for (const x of xs) { await body(x) }] *)
Fixpoint forOf {W A : Type} (xs : list A) (body : A -> M W unit) : M W unit :=
  match xs with
  | [] => ret tt
  | x :: rest => _ <~ body x ;; forOf rest body
  end.

(** [s.endsWith(suffix)] *)
Definition endsWith (s suffix : string) : bool :=
  (String.length suffix <=? String.length s)%nat
  && String.eqb (substring (String.length s - String.length suffix)
                   (String.length suffix) s) suffix.

(** [symbol.split('/')[0]]: the text before the first slash, all of it when
    there is none. *)
Fixpoint splitBase (symbol : string) : string :=
  match symbol with
  | EmptyString => EmptyString
  | String c rest => if Ascii.eqb c "/" then EmptyString else String c (splitBase rest)
  end.

Definition usdt : string := "/USDT".

(** ** The monitor and its requests *)

Module LiveIO.

Section WithServices.

Variable W : Type.
Variable sv : Services W.

Definition sendTelegramMessage (message : Message) : M W unit :=
  await (SendTelegram message) (post sv message).

(** [balance.free[currency]], [undefined] when the currency is not there. *)
Definition getBalance (currency : string) : M W (option number) :=
  balance <~ await FetchBalance (fetchBalance sv) ;;
  ret (balance currency).

(** The two latest candles, asked from ten minutes before now. *)
Definition fetchLatestOHLCV (symbol timeframe : string) : M W (list OHLCV) :=
  fun s =>
    let (t, w) := now sv (env s) in
    let since := (t - 2 * 5 * 60 * 1000)%Z in
    await (FetchOHLCV symbol timeframe since 2) (fetchOHLCV sv symbol timeframe since 2)
      {| env := w; trace := trace s |}.

Definition opposite (side : Side) : Side :=
  match side with Buy => Sell | Sell => Buy end.

Definition placeOrder (symbol : string) (side : Side) (amountMarket : number)
    (price : number) (takeProfit stopLoss : number) : M W unit :=
  tryCatch
    (amount <~ await (CreateOrder symbol Market side (Some amountMarket) None)
                 (createOrder sv symbol Market side (Some amountMarket) None) ;;
     let baseCurrency := splitBase symbol in
     baseBalance <~ getBalance baseCurrency ;;
     let message :=
       OrderPlaced symbol side amount price takeProfit stopLoss baseBalance baseCurrency in
     _ <~ sendTelegramMessage message ;;
     _ <~ await (CreateOrder symbol Limit (opposite side) baseBalance (Some takeProfit))
            (createOrder sv symbol Limit (opposite side) baseBalance (Some takeProfit)) ;;
     sendTelegramMessage (BracketPlaced takeProfit stopLoss))
    (fun error => sendTelegramMessage (OrderError symbol error)).

(** [ticker.quoteVolume || 0] *)
Definition get24hVolume (symbol : string) : M W number :=
  quoteVolume <~ await (FetchTicker symbol) (fetchTicker sv symbol) ;;
  ret (orZero quoteVolume).

(** [detectPriceSpikes] of the monitor, with its requests. *)
Definition detectPriceSpikes (threshold : number) (symbol : string) : M W unit :=
  volume24h <~ get24hVolume symbol ;;
  if volume24h <? Live.volumeThreshold then ret tt
  else
    data <~ fetchLatestOHLCV symbol Live.timeframe ;;
    if (List.length data <? 2)%nat then ret tt
    else
      match nth_error data (List.length data - 2), nth_error data (List.length data - 1) with
      | Some previous, Some current =>
          let currentPrice := close current in
          match spike threshold (close previous) currentPrice with
          | Some (change, isShort) =>
              if negb isShort then
                let amount := Live.orderAmount / currentPrice in
                let takeProfit := currentPrice * (1 + threshold) in
                let stopLoss := currentPrice * (1 - threshold) in
                placeOrder symbol Buy amount currentPrice takeProfit stopLoss
              else ret tt
          | None => ret tt
          end
      | _, _ => throw "TypeError"%string
      end.

(** Each symbol in its own [try]: what [detectPriceSpikes] throws is
    printed and dropped. *)
Definition monitorTickers (threshold : number) : M W unit :=
  markets <~ await LoadMarkets (loadMarkets sv) ;;
  let usdtSymbols := filter (fun symbol => endsWith symbol usdt) markets in
  forOf usdtSymbols
    (fun symbol => tryCatch (detectPriceSpikes threshold symbol) (fun error => ret tt)).

(** [while (true) { await monitorTickers() }], for [fuel] rounds. *)
Fixpoint runMonitoring (threshold : number) (fuel : nat) : M W unit :=
  match fuel with
  | O => fun s => (OutOfFuel, s)
  | S rounds => _ <~ monitorTickers threshold ;; runMonitoring threshold rounds
  end.

End WithServices.

(** The requests of a call of [placeOrder] that meets no rejection, for an
    order amount [a] and a balance [b] the exchange reports. *)
Definition orderSteps (symbol : string) (side : Side) (amountMarket : number)
    (price : number) (takeProfit stopLoss : number) (a b : option number) : list Event :=
  [ CreateOrder symbol Market side (Some amountMarket) None;
    FetchBalance;
    SendTelegram (OrderPlaced symbol side a price takeProfit stopLoss b (splitBase symbol));
    CreateOrder symbol Limit (opposite side) b (Some takeProfit);
    SendTelegram (BracketPlaced takeProfit stopLoss) ].

End LiveIO.

Definition isOrder (ev : Event) : bool :=
  match ev with CreateOrder _ _ _ _ _ => true | _ => false end.

Definition isMarketOrder (ev : Event) : bool :=
  match ev with CreateOrder _ Market _ _ _ => true | _ => false end.

Definition isLimitOrder (ev : Event) : bool :=
  match ev with CreateOrder _ Limit _ _ _ => true | _ => false end.

(** An order, if it is one, is for [symbol]. *)
Definition orderFor (symbol : string) (ev : Event) : Prop :=
  match ev with CreateOrder sym _ _ _ _ => sym = symbol | _ => True end.

(** The exchange has filled the market order of [placeOrder] for [a], in
    the world [w], and has then reported the balance [b] of the base
    currency of the symbol. *)
Definition reported {W : Type} (sv : Services W) (symbol : string) (side : Side)
    (amountMarket : number) (w : W) (a b : option number) : Prop :=
  exists w1 free w2,
    createOrder sv symbol Market side (Some amountMarket) None w = (Fulfilled a, w1) /\
    fetchBalance sv w1 = (Fulfilled free, w2) /\
    b = free (splitBase symbol).

(** The symbols whose ticker a trace asks for, in order. *)
Definition tickersOf (evs : list Event) : list string :=
  flat_map (fun ev => match ev with FetchTicker symbol => [symbol] | _ => [] end) evs.

(** An order of the monitor to a market in USDT: a market order buys, a
    limit order sells. *)
Definition buysThenSells (ev : Event) : Prop :=
  match ev with
  | CreateOrder symbol Market side _ _ => side = Buy /\ endsWith symbol usdt = true
  | CreateOrder symbol Limit side _ _ => side = Sell /\ endsWith symbol usdt = true
  | _ => True
  end.

(** The requests of the monitor for one symbol: its ticker first and no
    other ticker, and then one market order and one limit order at most,
    both for the symbol. *)
Definition ofSymbol (symbol : string) (requests : list Event) : Prop :=
  exists rest,
    requests = FetchTicker symbol :: rest /\ tickersOf rest = [] /\
    (List.length (filter isMarketOrder rest) <= 1)%nat /\
    (List.length (filter isLimitOrder rest) <= 1)%nat /\
    Forall (orderFor symbol) rest.

(** In the world [w] the exchange answers the monitor with a Long signal
    for the symbol: a ticker with a quote volume that is not below the
    volume threshold, and then at least two candles of which the last two
    make the spike test give a Long signal. *)
Definition longSignal {W : Type} (sv : Services W) (threshold : number)
    (symbol : string) (w : W) : Prop :=
  exists quoteVolume w1 t w2 data w3 change,
    fetchTicker sv symbol w = (Fulfilled quoteVolume, w1) /\
    (orZero quoteVolume <? Live.volumeThreshold) = false /\
    now sv w1 = (t, w2) /\
    fetchOHLCV sv symbol Live.timeframe (t - 2 * 5 * 60 * 1000) 2 w2
      = (Fulfilled data, w3) /\
    (2 <= List.length data)%nat /\
    Backtest.spikeAt threshold data (List.length data - 1) = Some (change, false).

(** ** The backtest and its requests *)

Module BacktestIO.

Section WithServices.

Variable W : Type.
Variable sv : Services W.

Definition limit : nat := 1000.

(** The loop of [fetchAllOHLCV], for [fuel] pages at most. *)
Fixpoint fetchPages (symbol timeframe : string) (fuel : nat) (allData : list OHLCV)
    (fetchSince : Z) : M W (list OHLCV) :=
  match fuel with
  | O => fun s => (OutOfFuel, s)
  | S pages =>
      ohlcv <~ await (FetchOHLCV symbol timeframe fetchSince limit)
                 (fetchOHLCV sv symbol timeframe fetchSince limit) ;;
      match List.length ohlcv with
      | O => ret allData
      | S _ =>
          let allData := allData ++ ohlcv in
          match nth_error ohlcv (List.length ohlcv - 1) with
          | Some lastCandle =>
              let fetchSince := (timestamp lastCandle + 1)%Z in
              if (List.length ohlcv <? limit)%nat then ret allData
              else fetchPages symbol timeframe pages allData fetchSince
          | None => throw "TypeError"%string
          end
      end
  end.

Definition fetchAllOHLCV (symbol timeframe : string) (since : Z) (fuel : nat)
    : M W (list OHLCV) :=
  fetchPages symbol timeframe fuel [] since.

(** [backtest]: the candles of the symbol, then the run over them, whose
    locals at the end the model returns; a run that throws throws here. *)
Definition backtest (symbol : string) (fuel : nat) : M W Backtest.State :=
  data <~ fetchAllOHLCV symbol Backtest.timeframe Backtest.since fuel ;;
  match Backtest.detectPriceSpikes Backtest.threshold Backtest.initialBalance data symbol with
  | Some st => ret st
  | None => throw "RangeError: Invalid time value"%string
  end.

(** The loop of [runBacktests] over the symbols; the model returns the
    locals of the runs, first symbol first. *)
Fixpoint backtestAll (symbols : list string) (fuel : nat) : M W (list Backtest.State) :=
  match symbols with
  | [] => ret []
  | symbol :: rest =>
      st <~ backtest symbol fuel ;;
      sts <~ backtestAll rest fuel ;;
      ret (st :: sts)
  end.

Definition runBacktests (fuel : nat) : M W (list Backtest.State) :=
  markets <~ await LoadMarkets (loadMarkets sv) ;;
  let usdtSymbols := filter (fun symbol => endsWith symbol usdt) markets in
  backtestAll usdtSymbols fuel.

End WithServices.

End BacktestIO.

(** The candles of a store from a time on. *)
Definition from (since : Z) (store : list OHLCV) : list OHLCV :=
  filter (fun c => (since <=? timestamp c)%Z) store.

(** A world without state in which every request is fulfilled: the exchange
    serves the candles of a symbol from [stores], fills an order for the
    amount asked, reports a balance of 5 in every currency, a quote volume
    of twenty million and the markets [markets]; the clock shows [clock]. *)
Definition storeServices (stores : string -> list OHLCV) (markets : list string)
    (clock : Z) : Services unit :=
  {| createOrder := fun _ _ _ amount _ w => (Fulfilled amount, w);
     fetchBalance := fun w => (Fulfilled (fun _ => Some 5), w);
     fetchTicker := fun _ w => (Fulfilled (Some 20000000), w);
     fetchOHLCV := fun symbol _ since limit w =>
       (Fulfilled (firstn limit (from since (stores symbol))), w);
     loadMarkets := fun w => (Fulfilled markets, w);
     post := fun _ w => (Fulfilled tt, w);
     now := fun w => (clock, w) |}.

Definition startRun : Run unit := {| env := tt; trace := [] |}.

(** A fall of 2% on the two latest candles. *)
Definition falling : list OHLCV := [flat 1704067200000 100; flat 1704067500000 98].

(** 1300 candles five minutes apart, the first hundred of them from before
    2024. *)
Definition longStore : list OHLCV :=
  map (fun i => flat (1704067200000 + (Z.of_nat i - 100) * 300000) 100) (seq 0 1300).

(** A rise of 2% at times no date can hold. *)
Definition beyondTime : list OHLCV :=
  [flat 8640000000000001 100; flat 8640000000000002 102].

(** An exchange whose candles of ETH/USDT are [beyondTime]. *)
Definition mixedStores (symbol : string) : list OHLCV :=
  if String.eqb symbol "ETH/USDT" then beyondTime else scenario1.

(** ** Vocabulary of the further properties *)

Definition isSpikeLine (line : LogLine) : bool :=
  match line with SpikeDetected _ _ _ _ _ _ _ => true | _ => false end.

(** The lines [executeTrade] prints. *)
Definition isExitLine (line : LogLine) : bool :=
  match line with
  | TakeProfitHit _ _ _ _ _ _ | StopLossHit _ _ _ _ _ _ | ClosedAtEnd _ _ _ _ => true
  | _ => false
  end.

(** Line [b] reports the exit of the trade whose spike line [a] reports:
    the entry price of [b] is the current price of [a], and the direction
    is the same. *)
Definition answers (a b : LogLine) : Prop :=
  match a, b with
  | SpikeDetected s _ _ _ cur _ _, (TakeProfitHit s' _ e _ _ _ | StopLossHit s' _ e _ _ _) =>
      s' = s /\ e = cur
  | SpikeDetected _ _ _ _ cur _ _, ClosedAtEnd _ e _ _ => e = cur
  | _, _ => False
  end.

(** The console of the loop: a line for each spike, each followed by the
    line of the exit of its trade. *)
Inductive Paired : list LogLine -> Prop :=
| PairedNil : Paired []
| PairedSnoc (l : list LogLine) (a b : LogLine) :
    Paired l -> answers a b -> Paired (l ++ [a; b]).

(** What the run leaves when it records no trade. *)
Definition untouched (initialBalance : number) (symbol : string) : Backtest.State :=
  {| Backtest.currentBalance := initialBalance;
     Backtest.totalTrades := 0;
     Backtest.winningTrades := 0;
     Backtest.losingTrades := 0;
     Backtest.world :=
       {| monthlyProfit := [];
          console := [FinalBalance symbol initialBalance; TotalTrades symbol 0;
                      WinningTrades symbol 0; LosingTrades symbol 0;
                      WinRate symbol NaN; MonthlyProfitHeader symbol] |};
     Backtest.trades := [] |}.

(** Closes 100 and 100.5: a move below the threshold of the backtest. *)
Definition calm : list OHLCV := [flat 1704067200000 100; flat 1704067500000 100.5].

(** Candles in the order of their timestamps, no two at the same time. *)
Fixpoint increasing (l : list OHLCV) : Prop :=
  match l with
  | [] => True
  | c :: rest => Forall (fun d => (timestamp c < timestamp d)%Z) rest /\ increasing rest
  end.

(** Candles each later than the one before, decided. *)
Fixpoint ascending (l : list OHLCV) : bool :=
  match l with
  | a :: (b :: _) as rest => (timestamp a <? timestamp b)%Z && ascending rest
  | _ => true
  end.

(** The requests of the backtest for a symbol: candles of the symbol, five
    minutes each, a thousand at most. *)
Definition candlesOf (symbol : string) (ev : Event) : Prop :=
  exists t, ev = FetchOHLCV symbol Backtest.timeframe t BacktestIO.limit.

(** ** Properties of the numbers

    From the specification of the binary64 operations. *)

(** Comparing the other way round gives the opposite answer. *)
Lemma SFcompare_antisym (x y : spec_float) :
  SFcompare y x = option_map CompOpp (SFcompare x y).
Proof.
  destruct x as [sx|sx| |sx mx ex], y as [sy|sy| |sy my ey]; cbn; try reflexivity;
    try (destruct sx; reflexivity); try (destruct sy; reflexivity);
    try (destruct sx, sy; reflexivity).
  destruct sx, sy; cbn; try reflexivity;
    rewrite (Z.compare_antisym ex ey); destruct (ex ?= ey)%Z; cbn; try reflexivity;
    pose proof (Pos.compare_cont_antisym mx my Eq) as H;
    pose proof (Pos.compare_cont_antisym my mx Eq) as H'; cbn [CompOpp] in H, H';
    rewrite ?CompOpp_involutive; f_equal; first [exact H' | symmetry; exact H].
Qed.

(** [<] is asymmetric, and equal numbers are not apart. *)
Lemma ltb_asym (x y : number) : (x <? y) = true -> (y <? x) = false.
Proof.
  rewrite !FloatAxioms.ltb_spec. unfold SFltb. rewrite (SFcompare_antisym (Prim2SF x) (Prim2SF y)).
  destruct (SFcompare (Prim2SF x) (Prim2SF y)) as [[ | | ]|]; cbn; congruence.
Qed.

Lemma eqb_not_ltb (x y : number) : (x =? y) = true -> (x <? y) = false /\ (y <? x) = false.
Proof.
  rewrite !FloatAxioms.ltb_spec, FloatAxioms.eqb_spec. unfold SFltb, SFeqb.
  rewrite (SFcompare_antisym (Prim2SF x) (Prim2SF y)).
  destruct (SFcompare (Prim2SF x) (Prim2SF y)) as [[ | | ]|]; cbn; split; congruence.
Qed.

(** Subtracting is adding the opposite, rounding included. *)
Lemma sub_add_opp (x y : number) : x - y = x + - y.
Proof.
  apply Prim2SF_inj. rewrite FloatAxioms.sub_spec, FloatAxioms.add_spec, FloatAxioms.opp_spec.
  destruct (Prim2SF x) as [sx|sx| |sx mx ex], (Prim2SF y) as [sy|sy| |sy my ey];
    try reflexivity;
    try (destruct sx, sy; reflexivity).
Qed.


(** The shape of a finite number, of a zero and of NaN. *)
Lemma is_finite_SF (x : number) :
  PrimFloat.is_finite x = true ->
  match Prim2SF x with S754_zero _ | S754_finite _ _ _ => True | _ => False end.
Proof.
  unfold PrimFloat.is_finite, PrimFloat.is_nan, PrimFloat.is_infinity. rewrite !FloatAxioms.eqb_spec, FloatAxioms.abs_spec.
  destruct (Prim2SF x) as [s|s| |s m e]; trivial; try destruct s; vm_compute; discriminate.
Qed.

Lemma is_zero_SF (x : number) :
  PrimFloat.is_zero x = true <-> exists s, Prim2SF x = S754_zero s.
Proof.
  unfold PrimFloat.is_zero. rewrite FloatAxioms.eqb_spec.
  change (Prim2SF PrimFloat.zero) with (S754_zero false).
  destruct (Prim2SF x) as [s|s| |s m e]; cbn; split.
  - intros _. exists s. reflexivity.
  - reflexivity.
  - destruct s; discriminate.
  - intros [s' H]. discriminate H.
  - discriminate.
  - intros [s' H]. discriminate H.
  - destruct s; discriminate.
  - intros [s' H]. discriminate H.
Qed.

(** A finite number minus itself is 0. *)
Lemma sub_diag (x : number) : PrimFloat.is_finite x = true -> x - x = 0.
Proof.
  intros H. apply is_finite_SF in H. apply Prim2SF_inj. rewrite FloatAxioms.sub_spec.
  destruct (Prim2SF x) as [s|s| |s m e]; try contradiction.
  - destruct s; reflexivity.
  - unfold SF64sub, SFsub. cbv zeta.
    replace (Z.min e e) with e by (symmetry; apply Z.min_id).
    unfold shl_align. replace (Z.sub e e) with 0%Z by (symmetry; apply Z.sub_diag).
    cbn [fst]. replace (Z.sub (cond_Zopp s (Zpos m)) (cond_Zopp s (Zpos m))) with 0%Z
      by (symmetry; apply Z.sub_diag).
    reflexivity.
Qed.

(** Zero over a finite number other than zero, zero times a finite number,
    and a finite number plus zero. *)
Lemma div_zero_l (z x : number) :
  PrimFloat.is_zero z = true -> PrimFloat.is_finite x = true ->
  PrimFloat.is_zero x = false -> PrimFloat.is_zero (z / x) = true.
Proof.
  intros Hz Hf Hx. apply is_zero_SF in Hz. destruct Hz as [s Hz].
  apply is_finite_SF in Hf. apply is_zero_SF.
  assert (Hx' : ~ exists s, Prim2SF x = S754_zero s)
    by (intros H; apply is_zero_SF in H; congruence).
  rewrite FloatAxioms.div_spec, Hz.
  destruct (Prim2SF x) as [sx|sx| |sx mx ex]; try contradiction.
  - exfalso. apply Hx'. eauto.
  - cbn. eauto.
Qed.

Lemma mul_zero_l (z b : number) :
  PrimFloat.is_zero z = true -> PrimFloat.is_finite b = true ->
  PrimFloat.is_zero (z * b) = true.
Proof.
  intros Hz Hf. apply is_zero_SF in Hz. destruct Hz as [s Hz].
  apply is_finite_SF in Hf. apply is_zero_SF.
  rewrite FloatAxioms.mul_spec, Hz.
  destruct (Prim2SF b) as [sx|sx| |sx mx ex]; try contradiction; cbn; eauto.
Qed.

Lemma opp_zero (z : number) :
  PrimFloat.is_zero z = true -> PrimFloat.is_zero (- z) = true.
Proof.
  intros Hz. apply is_zero_SF in Hz. destruct Hz as [s Hz]. apply is_zero_SF.
  rewrite FloatAxioms.opp_spec, Hz. cbn. eauto.
Qed.

Lemma add_zero_r (b z : number) :
  PrimFloat.is_zero z = true -> PrimFloat.is_finite b = true -> (b + z =? b) = true.
Proof.
  intros Hz Hf. apply is_zero_SF in Hz. destruct Hz as [s Hz].
  apply is_finite_SF in Hf.
  rewrite FloatAxioms.eqb_spec, FloatAxioms.add_spec, Hz.
  destruct (Prim2SF b) as [sx|sx| |sx mx ex]; try contradiction.
  - destruct sx, s; reflexivity.
  - cbn. unfold SFeqb. cbn.
    destruct sx; rewrite Z.compare_refl, Pos.compare_cont_refl; reflexivity.
Qed.


(** ** Loops *)

Lemma before_nth {A : Type} (data : list A) (i : nat) :
  (1 <= i)%nat -> before data i = nth_error data (i - 1).
Proof. destruct i as [|j]; [lia|]. intros _. cbn. rewrite Nat.sub_0_r. reflexivity. Qed.

Lemma before_some {A : Type} (data : list A) (i : nat) (x : A) :
  before data i = Some x -> (1 <= i)%nat /\ nth_error data (i - 1) = Some x.
Proof.
  destruct i as [|j]; [discriminate|]. cbn. rewrite Nat.sub_0_r. intros H.
  split; [lia | exact H].
Qed.

Lemma range_S (lo hi : nat) : (lo <= hi)%nat -> range lo (S hi) = range lo hi ++ [hi].
Proof.
  intros H. unfold range. replace (S hi - lo)%nat with (S (hi - lo)) by lia.
  rewrite seq_S. f_equal. f_equal. lia.
Qed.

Lemma in_range (lo hi i : nat) : In i (range lo hi) <-> (lo <= i < hi)%nat.
Proof. unfold range. rewrite in_seq. lia. Qed.

(** A loop whose body never breaks runs its second half from where the
    first one ends. *)
Lemma forEach_app {S : Type} (body : nat -> S -> option (ctl S)) (l1 l2 : list nat) (s : S) :
  (forall i s s', body i s <> Some (Break s')) ->
  forEach body (l1 ++ l2) s = (s1 <- forEach body l1 s ;; forEach body l2 s1).
Proof.
  intros Hnb. revert s. induction l1 as [|i l1 IH]; intros s; cbn; [reflexivity|].
  destruct (body i s) as [[s'|s']|] eqn:E; cbn; trivial.
  exfalso; exact (Hnb _ _ _ E).
Qed.

(** A loop returns when its body returns at every index. *)
Lemma forEach_total {S : Type} (body : nat -> S -> option (ctl S)) (l : list nat) (s : S) :
  (forall i s, In i l -> body i s <> None) -> forEach body l s <> None.
Proof.
  revert s. induction l as [|i l IH]; intros s H; cbn; [discriminate|].
  destruct (body i s) as [[s'|s']|] eqn:E.
  - apply IH. intros j t Hj. apply H. right; exact Hj.
  - discriminate.
  - exfalso. apply (H i s); [left; reflexivity | exact E].
Qed.

(** An invariant of the body is an invariant of the loop. *)
Lemma forEach_invariant {S : Type} (P : S -> Prop) (body : nat -> S -> option (ctl S))
    (l : list nat) (s s' : S) :
  (forall i t c, In i l -> P t -> body i t = Some c ->
     match c with Continue t' | Break t' => P t' end) ->
  P s -> forEach body l s = Some s' -> P s'.
Proof.
  revert s. induction l as [|i l IH]; intros s Hb Hs; cbn.
  - intros [= <-]. exact Hs.
  - destruct (body i s) as [[t|t]|] eqn:E; try discriminate.
    + apply IH.
      * intros j u c Hj. apply Hb. right; exact Hj.
      * exact (Hb i s (Continue t) (or_introl eq_refl) Hs E).
    + intros [= <-]. exact (Hb i s (Break t) (or_introl eq_refl) Hs E).
Qed.

(** ** The scan of [executeTrade], candle by candle *)

Section Scan.
Import Backtest.
Local Open Scope float_scope.

(** The three ways an iteration ends: the target is tested first. *)
Lemma tradeStep_cases data isShort entryPrice target stopLoss i v c month :
  nth_error data i = Some c -> monthKey (timestamp c) = Some month ->
  tradeStep data isShort entryPrice target stopLoss i v =
    if targetMet isShort target c then Some (Break (wonAt isShort entryPrice c month v))
    else if stopMet isShort stopLoss c then Some (Break (lostAt isShort entryPrice c month v))
    else Some (Continue v).
Proof.
  intros Hc Hm. unfold tradeStep. rewrite Hc; cbn [bind]. rewrite Hm; cbn [bind].
  unfold targetMet, stopMet, wonAt, lostAt, winProfit, lossAmount, touchPrice.
  destruct isShort; cbn [andb orb negb].
  - destruct (low c <=? target); [reflexivity|].
    rewrite orb_false_r. reflexivity.
  - destruct (high c >=? target); reflexivity.
Qed.

Lemma tradeStep_some data isShort entryPrice target stopLoss i v r :
  tradeStep data isShort entryPrice target stopLoss i v = Some r ->
  exists c month, nth_error data i = Some c /\ monthKey (timestamp c) = Some month.
Proof.
  unfold tradeStep. destruct (nth_error data i) as [c|]; [|discriminate]. cbn [bind].
  destruct (monthKey (timestamp c)) as [m|] eqn:Hm; [|discriminate]. intros _; eauto.
Qed.

End Scan.

Section ScanResult.
Import Backtest.
Local Open Scope float_scope.

Variables (data : list OHLCV) (isShort : bool) (entryPrice : number) (target stopLoss : number).

Lemma tradeStep_quiet i v :
  quiet data isShort target stopLoss i ->
  tradeStep data isShort entryPrice target stopLoss i v = Some (Continue v).
Proof.
  intros (c & Hc & Hm & Ht & Hs).
  destruct (monthKey (timestamp c)) as [month|] eqn:E; [|congruence].
  rewrite (tradeStep_cases _ _ _ _ _ _ _ _ _ Hc E), Ht, Hs. reflexivity.
Qed.

(** The scan stops at the first index that is not quiet. *)
Lemma scan_result l v v' :
  forEach (tradeStep data isShort entryPrice target stopLoss) l v = Some v' ->
  (Forall (quiet data isShort target stopLoss) l /\ v' = v) \/
  exists l1 i l2 c month,
    l = l1 ++ i :: l2 /\ Forall (quiet data isShort target stopLoss) l1 /\
    nth_error data i = Some c /\ monthKey (timestamp c) = Some month /\
    ((targetMet isShort target c = true /\ v' = wonAt isShort entryPrice c month v) \/
     (targetMet isShort target c = false /\ stopMet isShort stopLoss c = true /\
      v' = lostAt isShort entryPrice c month v)).
Proof.
  induction l as [|i l IH]; cbn [forEach].
  - intros [= <-]. left. split; [constructor | reflexivity].
  - destruct (tradeStep data isShort entryPrice target stopLoss i v) as [r|] eqn:E;
      [|discriminate].
    destruct (tradeStep_some _ _ _ _ _ _ _ _ E) as (c & month & Hc & Hm).
    rewrite (tradeStep_cases _ _ _ _ _ _ _ _ _ Hc Hm) in E.
    destruct (targetMet isShort target c) eqn:Ht.
    { injection E as <-. intros [= <-]. right.
      exists [], i, l, c, month. cbn.
      split; [reflexivity|]. split; [constructor|]. split; [exact Hc|].
      split; [exact Hm|]. left. split; [exact Ht | reflexivity]. }
    destruct (stopMet isShort stopLoss c) eqn:Hs.
    { injection E as <-. intros [= <-]. right.
      exists [], i, l, c, month. cbn.
      split; [reflexivity|]. split; [constructor|]. split; [exact Hc|].
      split; [exact Hm|]. right. split; [exact Ht|]. split; [exact Hs | reflexivity]. }
    injection E as <-. intros H.
    assert (Hq : quiet data isShort target stopLoss i).
    { exists c. repeat split; auto. congruence. }
    destruct (IH H) as [[Hall ->] | (l1 & k & l2 & c' & m' & -> & Hall & Hrest)].
    + left. split; [constructor; assumption | reflexivity].
    + right. exists (i :: l1), k, l2, c', m'. cbn.
      split; [reflexivity|]. split; [constructor; assumption | exact Hrest].
Qed.

Lemma scan_quiet l v :
  Forall (quiet data isShort target stopLoss) l ->
  forEach (tradeStep data isShort entryPrice target stopLoss) l v = Some v.
Proof.
  induction 1 as [|i l Hq _ IH]; cbn [forEach]; [reflexivity|].
  rewrite (tradeStep_quiet _ _ Hq). exact IH.
Qed.

Lemma scan_hit l1 i l2 v c month :
  Forall (quiet data isShort target stopLoss) l1 ->
  nth_error data i = Some c -> monthKey (timestamp c) = Some month ->
  forEach (tradeStep data isShort entryPrice target stopLoss) (l1 ++ i :: l2) v =
    if targetMet isShort target c then Some (wonAt isShort entryPrice c month v)
    else if stopMet isShort stopLoss c then Some (lostAt isShort entryPrice c month v)
    else forEach (tradeStep data isShort entryPrice target stopLoss) l2 v.
Proof.
  intros Hq Hc Hm. induction Hq as [|j l Hj _ IH]; cbn [forEach app].
  - rewrite (tradeStep_cases _ _ _ _ _ _ _ _ _ Hc Hm).
    destruct (targetMet isShort target c); [reflexivity|].
    destruct (stopMet isShort stopLoss c); reflexivity.
  - rewrite (tradeStep_quiet _ _ Hj). exact IH.
Qed.

End ScanResult.

Lemma range_split (lo hi i : nat) (l1 l2 : list nat) :
  range lo hi = l1 ++ i :: l2 -> (lo <= i < hi)%nat /\ l1 = range lo i /\ l2 = range (S i) hi.
Proof.
  unfold range. remember (hi - lo)%nat as n eqn:Hn.
  revert lo hi n Hn l2. induction l1 as [|a l1 IH]; intros lo hi n Hn l2 H.
  - destruct n as [|n]; cbn in H; [discriminate|]. injection H as <- <-.
    split; [lia|]. split; [now rewrite Nat.sub_diag|]. f_equal. lia.
  - destruct n as [|n]; cbn in H; [discriminate|]. injection H as <- H.
    destruct (IH (S lo) hi n ltac:(lia) l2 H) as (Hi & -> & ->).
    split; [lia|]. split; [|reflexivity].
    replace (i - lo)%nat with (S (i - S lo)) by lia. reflexivity.
Qed.

Lemma Forall_range (P : nat -> Prop) (lo hi : nat) :
  Forall P (range lo hi) <-> forall j, (lo <= j < hi)%nat -> P j.
Proof.
  rewrite Forall_forall. split; intros H j Hj; apply H; apply in_range; exact Hj.
Qed.

Lemma range_app (lo hi i : nat) :
  (lo <= i < hi)%nat -> range lo hi = range lo i ++ i :: range (S i) hi.
Proof.
  intros H. unfold range.
  replace (hi - lo)%nat with ((i - lo) + S (hi - S i))%nat by lia.
  rewrite seq_app. cbn [seq]. repeat f_equal; lia.
Qed.

Lemma monthKey_valid (t : Z) : monthKey t <> None <-> validTime t = true.
Proof.
  unfold monthKey, toISOString. destruct (validTime t).
  - destruct (civilFromDays (t / msPerDay)) as [[y m] d]. cbn. split; [reflexivity | discriminate].
  - cbn. split; [congruence | discriminate].
Qed.

(** ** [executeTrade] and the resolution of a position *)

Section ExecuteTrade.
Import Backtest.
Local Open Scope float_scope.

Variables (data : list OHLCV) (index : nat) (change : number) (isShort : bool).
Variables (currentBalance : number) (w : World).

Lemma closeAtEnd_opened entryPrice v :
  positionOpened v = true ->
  closeAtEnd data isShort entryPrice v =
    (c <- nth_error data (List.length data - 1) ;;
     month <- monthKey (timestamp c) ;;
     Some (closedAt isShort entryPrice c month v)).
Proof. intros H. unfold closeAtEnd. rewrite H. reflexivity. Qed.

Lemma closeAtEnd_closed entryPrice v :
  positionOpened v = false -> closeAtEnd data isShort entryPrice v = Some v.
Proof. intros H. unfold closeAtEnd. rewrite H. reflexivity. Qed.

(** What [executeTrade] returns is a resolution of the position. *)
Lemma executeTrade_resolves rw :
  executeTrade data index change isShort currentBalance w = Some rw ->
  exists entry v,
    nth_error data index = Some entry /\
    Resolves data index isShort (close entry)
      (targetPrice isShort (close entry) (Math_abs change))
      (stopLossPrice isShort (close entry) (Math_abs change))
      (openVars currentBalance w) v /\
    rw = resultOf v.
Proof.
  unfold executeTrade. destruct (nth_error data index) as [entry|] eqn:He; [|discriminate].
  cbn [bind]. fold (openVars currentBalance w).
  set (E := close entry). set (tg := targetPrice _ _ _). set (sl := stopLossPrice _ _ _).
  destruct (forEach _ _ _) as [v|] eqn:Hscan; [|discriminate]. cbn [bind].
  intros H. exists entry.
  destruct (scan_result _ _ _ _ _ _ _ _ Hscan)
    as [[Hq ->] | (l1 & i & l2 & c & month & Hl & Hq & Hc & Hm & Hhit)].
  - rewrite closeAtEnd_opened in H by reflexivity.
    destruct (nth_error data (List.length data - 1)) as [c|] eqn:Hc; [|discriminate].
    cbn [bind] in H. destruct (monthKey (timestamp c)) as [month|] eqn:Hm; [|discriminate].
    cbn [bind] in H. injection H as <-.
    exists (closedAt isShort E c month (openVars currentBalance w)).
    split; [reflexivity|]. split; [|reflexivity].
    apply EndOfData; auto.
    intros j Hj. rewrite Forall_range in Hq. apply Hq. lia.
  - destruct (range_split _ _ _ _ _ Hl) as (Hi & -> & _).
    rewrite Forall_range in Hq.
    assert (Hbefore : forall j, (index < j < i)%nat -> quiet data isShort tg sl j)
      by (intros j Hj; apply Hq; lia).
    destruct Hhit as [[Ht ->] | (Ht & Hs & ->)];
      rewrite closeAtEnd_closed in H by reflexivity; injection H as <-.
    + exists (wonAt isShort E c month (openVars currentBalance w)).
      split; [reflexivity|]. split; [|reflexivity].
      apply TargetHit with (i := i); auto; lia.
    + exists (lostAt isShort E c month (openVars currentBalance w)).
      split; [reflexivity|]. split; [|reflexivity].
      apply StopHit with (i := i); auto; lia.
Qed.

(** Every resolution of the position is what [executeTrade] returns. *)
Lemma resolves_executeTrade entry v :
  nth_error data index = Some entry ->
  Resolves data index isShort (close entry)
    (targetPrice isShort (close entry) (Math_abs change))
    (stopLossPrice isShort (close entry) (Math_abs change))
    (openVars currentBalance w) v ->
  executeTrade data index change isShort currentBalance w = Some (resultOf v).
Proof.
  intros He Hres. unfold executeTrade. rewrite He. cbn [bind].
  fold (openVars currentBalance w).
  set (E := close entry) in *. set (tg := targetPrice _ _ _) in *.
  set (sl := stopLossPrice _ _ _) in *.
  destruct Hres as [i c month Hi Hq Hc Hm Ht | i c month Hi Hq Hc Hm Ht Hs | c month Hq Hc Hm].
  - rewrite (range_app (index + 1) (List.length data) i) by lia.
    rewrite (scan_hit _ _ _ _ _ _ _ _ _ _ month) by
      (first [eassumption | rewrite Forall_range; intros j Hj; apply Hq; lia]).
    rewrite Ht. cbn [bind]. rewrite closeAtEnd_closed by reflexivity. reflexivity.
  - rewrite (range_app (index + 1) (List.length data) i) by lia.
    rewrite (scan_hit _ _ _ _ _ _ _ _ _ _ month) by
      (first [eassumption | rewrite Forall_range; intros j Hj; apply Hq; lia]).
    rewrite Ht, Hs. cbn [bind]. rewrite closeAtEnd_closed by reflexivity. reflexivity.
  - rewrite scan_quiet by (rewrite Forall_range; intros j Hj; apply Hq; lia).
    cbn [bind]. rewrite closeAtEnd_opened by reflexivity.
    rewrite Hc. cbn [bind]. rewrite Hm. reflexivity.
Qed.

(** The returned balance is the balance passed in plus the returned profit. *)
Lemma executeTrade_balance r w' :
  executeTrade data index change isShort currentBalance w = Some (r, w') ->
  balance r = currentBalance + profit r.
Proof.
  intros H. destruct (executeTrade_resolves _ H) as (entry & v & _ & Hres & Hrw).
  injection Hrw as -> _. destruct Hres; try reflexivity.
  cbn [lostAt tradeBalance tradeProfit]. apply sub_add_opp.
Qed.

(** [executeTrade] returns when the position is in the series and every
    date is valid. *)
Lemma executeTrade_total :
  (index < List.length data)%nat ->
  Forall (fun c => validTime (timestamp c) = true) data ->
  executeTrade data index change isShort currentBalance w <> None.
Proof.
  intros Hi Hvalid. rewrite Forall_forall in Hvalid.
  assert (Hnth : forall j, (j < List.length data)%nat ->
            exists c, nth_error data j = Some c /\ monthKey (timestamp c) <> None).
  { intros j Hj. destruct (nth_error data j) as [c|] eqn:E.
    - exists c. split; [reflexivity|]. apply monthKey_valid, Hvalid.
      eapply nth_error_In; eassumption.
    - apply nth_error_None in E. lia. }
  unfold executeTrade.
  destruct (Hnth index Hi) as (entry & -> & _). cbn [bind].
  destruct (forEach _ _ _) as [v|] eqn:Hscan.
  - cbn [bind]. unfold closeAtEnd. destruct (positionOpened v); [|discriminate].
    destruct (Hnth (List.length data - 1)%nat ltac:(lia)) as (c & -> & Hm). cbn [bind].
    destruct (monthKey (timestamp c)); [discriminate | congruence].
  - exfalso. revert Hscan. apply forEach_total. intros j s Hj.
    apply in_range in Hj. destruct (Hnth j ltac:(lia)) as (c & Hc & Hm).
    destruct (monthKey (timestamp c)) as [month|] eqn:E; [|congruence].
    rewrite (tradeStep_cases _ _ _ _ _ _ _ _ _ Hc E).
    destruct (targetMet _ _ _); [discriminate|]. destruct (stopMet _ _ _); discriminate.
Qed.

End ExecuteTrade.

(** ** The loop of [detectPriceSpikes] *)

Section Run.
Import Backtest.
Local Open Scope float_scope.

Variables (threshold initialBalance : number) (data : list OHLCV) (symbol : string).

(** An iteration leaves the locals as they are, or records one trade. *)
Lemma spikeStep_inv i st c :
  spikeStep threshold data symbol i st = Some c ->
  exists previous current,
    before data i = Some previous /\ nth_error data i = Some current /\
    ((spike threshold (close previous) (close current) = None /\ c = Continue st) \/
     (exists change isShort r w',
        spike threshold (close previous) (close current) = Some (change, isShort) /\
        executeTrade data i change isShort (currentBalance st)
          (print (spikeLine symbol previous current change isShort) (world st))
          = Some (r, w') /\
        c = Continue (recordTrade i r w' st))).
Proof.
  unfold spikeStep.
  destruct (before data i) as [previous|]; [|discriminate]. cbn [bind].
  destruct (nth_error data i) as [current|]; [|discriminate]. cbn [bind].
  intros H. exists previous, current. split; [reflexivity|]. split; [reflexivity|].
  destruct (spike threshold (close previous) (close current)) as [[change isShort]|].
  - right. fold (spikeLine symbol previous current change isShort) in H.
    destruct (executeTrade _ _ _ _ _ _) as [[r w']|] eqn:E; [|discriminate].
    cbn in H. injection H as <-. exists change, isShort, r, w'.
    split; [reflexivity|]. split; [exact E|]. reflexivity.
  - left. injection H as <-. split; reflexivity.
Qed.

Lemma spikeStep_continues i st s' : spikeStep threshold data symbol i st <> Some (Break s').
Proof.
  intros H. destruct (spikeStep_inv _ _ _ H)
    as (p & c & _ & _ & [[_ E] | (ch & s & r & w' & _ & _ & E)]); discriminate.
Qed.

Lemma spikeStep_total i st :
  (1 <= i < List.length data)%nat -> validDates data ->
  spikeStep threshold data symbol i st <> None.
Proof.
  intros Hi Hv. unfold spikeStep. rewrite before_nth by lia.
  destruct (nth_error data (i - 1)) as [previous|] eqn:Ep;
    [|apply nth_error_None in Ep; lia].
  destruct (nth_error data i) as [current|] eqn:Ec;
    [|apply nth_error_None in Ec; lia].
  cbn [bind]. destruct (spike _ _ _) as [[change isShort]|]; [|discriminate].
  destruct (executeTrade _ _ _ _ _ _) as [rw|] eqn:E; [discriminate|].
  exfalso. revert E. apply executeTrade_total; [lia | exact Hv].
Qed.

(** The locals after one more iteration. *)
Lemma spikeLoop_S n :
  (1 <= n)%nat ->
  spikeLoop threshold initialBalance data symbol (S n) =
    (st <- spikeLoop threshold initialBalance data symbol n ;;
     c <- spikeStep threshold data symbol n st ;;
     match c with Continue st' | Break st' => Some st' end).
Proof.
  intros Hn. unfold spikeLoop. rewrite range_S by exact Hn.
  rewrite forEach_app by (intros; apply spikeStep_continues).
  destruct (forEach _ (range 1 n) _) as [st|]; [|reflexivity]. cbn.
  destruct (spikeStep threshold data symbol n st) as [[st'|st']|]; reflexivity.
Qed.

Lemma spikeLoop_total n :
  (n <= List.length data)%nat -> validDates data ->
  spikeLoop threshold initialBalance data symbol n <> None.
Proof.
  intros Hn Hv. apply forEach_total. intros i st Hi. apply in_range in Hi.
  apply spikeStep_total; [lia | exact Hv].
Qed.

(** A property of the initial locals that every recorded trade preserves
    holds after any number of iterations. *)
Lemma spikeLoop_invariant (P : State -> Prop) n st :
  P (initialState initialBalance) ->
  (forall i change isShort r w' t w,
     P t -> executeTrade data i change isShort (currentBalance t) w = Some (r, w') ->
     P (recordTrade i r w' t)) ->
  spikeLoop threshold initialBalance data symbol n = Some st -> P st.
Proof.
  intros H0 Hstep. unfold spikeLoop. apply forEach_invariant; [|exact H0].
  intros i t c _ Ht Hc.
  destruct (spikeStep_inv _ _ _ Hc)
    as (p & cu & _ & _ & [[_ ->] | (ch & s & r & w' & _ & Hex & ->)]).
  - exact Ht.
  - eapply Hstep; eassumption.
Qed.

Lemma detectPriceSpikes_inv st :
  detectPriceSpikes threshold initialBalance data symbol = Some st ->
  exists st0,
    spikeLoop threshold initialBalance data symbol (List.length data) = Some st0 /\
    currentBalance st = currentBalance st0 /\ totalTrades st = totalTrades st0 /\
    winningTrades st = winningTrades st0 /\ losingTrades st = losingTrades st0 /\
    trades st = trades st0 /\
    monthlyProfit (world st) = monthlyProfit (world st0) /\
    console (world st) = console (world st0) ++ summary symbol st0.
Proof.
  unfold detectPriceSpikes.
  destruct (spikeLoop _ _ _ _ _) as [st0|]; [|discriminate].
  cbn [bind]. intros [= <-]. exists st0. cbn. repeat split; reflexivity.
Qed.

Lemma detectPriceSpikes_total :
  validDates data -> detectPriceSpikes threshold initialBalance data symbol <> None.
Proof.
  intros Hv. unfold detectPriceSpikes.
  destruct (spikeLoop _ _ _ _ _) as [st0|] eqn:E; [discriminate|].
  exfalso. revert E. apply spikeLoop_total; [lia | exact Hv].
Qed.

Lemma addProfits_snoc start l i r :
  addProfits start (l ++ [(i, r)]) = addProfits start l + profit r.
Proof. unfold addProfits. rewrite fold_left_app. reflexivity. Qed.

Lemma ledger_invariant n st :
  spikeLoop threshold initialBalance data symbol n = Some st -> ledger initialBalance st.
Proof.
  apply spikeLoop_invariant.
  - reflexivity.
  - intros i change isShort r w' t w Ht Hex. unfold ledger in *.
    cbn [currentBalance trades recordTrade].
    rewrite (executeTrade_balance _ _ _ _ _ _ _ _ Hex), Ht, addProfits_snoc.
    reflexivity.
Qed.


End Run.

Lemma spikeAt_nth (threshold : number) (data : list OHLCV) (i : nat) (previous current : OHLCV) :
  before data i = Some previous -> nth_error data i = Some current ->
  Backtest.spikeAt threshold data i = spike threshold (close previous) (close current).
Proof. intros Hp Hc. unfold Backtest.spikeAt. rewrite Hp, Hc. reflexivity. Qed.

(** An iteration passes over its index exactly when the test gives no
    signal. *)
Lemma spikeStep_spikeAt (threshold : number) (data : list OHLCV) (symbol : string)
    (i : nat) (st : Backtest.State) (c : ctl Backtest.State) :
  Backtest.spikeStep threshold data symbol i st = Some c ->
  (Backtest.isSpike threshold data i = false /\ c = Continue st) \/
  (Backtest.isSpike threshold data i = true /\
   exists r w', c = Continue (Backtest.recordTrade i r w' st)).
Proof.
  intros H. unfold Backtest.isSpike.
  destruct (spikeStep_inv _ _ _ _ _ _ H)
    as (p & cu & Hp & Hc & [[Hs ->] | (ch & s & r & w' & Hs & _ & ->)]);
    rewrite (spikeAt_nth _ _ _ _ _ Hp Hc), Hs.
  - left. split; reflexivity.
  - right. split; [reflexivity|]. exists r, w'. reflexivity.
Qed.

Lemma filter_range_S (f : nat -> bool) (n : nat) :
  (1 <= n)%nat ->
  filter f (range 1 (S n)) = filter f (range 1 n) ++ (if f n then [n] else []).
Proof.
  intros Hn. rewrite range_S by exact Hn. rewrite filter_app. cbn [filter].
  destruct (f n); reflexivity.
Qed.

(** The trades recorded after the iterations below [n] are those of the
    indices below [n] at which the test gives a signal, in order. *)
Lemma trades_indices (threshold initialBalance : number) (data : list OHLCV)
    (symbol : string) (n : nat) (st : Backtest.State) :
  Backtest.spikeLoop threshold initialBalance data symbol n = Some st ->
  map fst (Backtest.trades st) = filter (Backtest.isSpike threshold data) (range 1 n).
Proof.
  revert st. induction n as [|n IH]; intros st H.
  - injection H as <-. reflexivity.
  - destruct n as [|n]; [injection H as <-; reflexivity|].
    rewrite spikeLoop_S in H by lia.
    destruct (Backtest.spikeLoop threshold initialBalance data symbol (S n))
      as [st0|]; [|discriminate].
    cbn [bind] in H.
    destruct (Backtest.spikeStep threshold data symbol (S n) st0) as [c|] eqn:E;
      [|discriminate].
    cbn [bind] in H. rewrite filter_range_S by lia. rewrite <- (IH st0 eq_refl).
    destruct (spikeStep_spikeAt _ _ _ _ _ _ E) as [[Hs ->] | (Hs & r & w' & ->)];
      rewrite Hs; injection H as <-.
    + rewrite app_nil_r. reflexivity.
    + cbn [Backtest.trades Backtest.recordTrade]. rewrite map_app. reflexivity.
Qed.

(** ** Ledger and counters *)

(** C1, as the code has it.  The balance is the initial balance with the
    profits of the recorded trades added to it one after another, in the
    order of their recording, each sum rounded: after any number of
    iterations of the loop (so after each trade is recorded) and when the
    run is over; and the run is over whenever the dates of the candles are
    valid.  The two are the same number; they are equal in the sense of [==]
    unless that number is NaN. *)
Theorem C1_ledger_consistency (threshold initialBalance : number) (data : list OHLCV)
    (symbol : string) :
  (forall n st,
     Backtest.spikeLoop threshold initialBalance data symbol n = Some st ->
     Backtest.ledger initialBalance st) /\
  (forall st,
     Backtest.detectPriceSpikes threshold initialBalance data symbol = Some st ->
     Backtest.ledger initialBalance st /\
     (Backtest.currentBalance st
        =? Backtest.addProfits initialBalance (Backtest.trades st))
     = negb (PrimFloat.is_nan (Backtest.currentBalance st))) /\
  (Backtest.validDates data ->
   exists st,
     Backtest.detectPriceSpikes threshold initialBalance data symbol = Some st /\
     Backtest.ledger initialBalance st).
Proof.
  assert (Hfinal : forall st,
            Backtest.detectPriceSpikes threshold initialBalance data symbol = Some st ->
            Backtest.ledger initialBalance st).
  { intros st H. destruct (detectPriceSpikes_inv _ _ _ _ _ H)
      as (st0 & Hloop & Hb & _ & _ & _ & Ht & _).
    unfold Backtest.ledger. rewrite Hb, Ht.
    exact (ledger_invariant _ _ _ _ _ _ Hloop). }
  split; [|split].
  - intros n st. apply ledger_invariant.
  - intros st H. split; [exact (Hfinal st H)|].
    rewrite <- (Hfinal st H). unfold PrimFloat.is_nan. rewrite negb_involutive.
    reflexivity.
  - intros Hv.
    destruct (Backtest.detectPriceSpikes threshold initialBalance data symbol)
      as [st|] eqn:E.
    + exists st. split; [reflexivity | exact (Hfinal st eq_refl)].
    + exfalso. exact (detectPriceSpikes_total _ _ _ _ Hv E).
Qed.

Lemma validDates_scenario1 : Backtest.validDates scenario1.
Proof. repeat constructor. Qed.

(** The run over closes 100, 98, 102 ends, and its ledger is consistent. *)
Lemma C1_ledger_consistency_witness :
  exists st,
    Backtest.detectPriceSpikes Backtest.threshold Backtest.initialBalance
      scenario1 "BTC/USDT" = Some st /\
    Backtest.ledger Backtest.initialBalance st.
Proof.
  exact (proj2 (proj2 (C1_ledger_consistency Backtest.threshold Backtest.initialBalance
                         scenario1 "BTC/USDT")) validDates_scenario1).
Defined.

(** The balance is not always equal to the initial balance plus the sum of
    the profits.  In [overlapping] the three profits are added to 1000 one
    by one and give 1044.1176470588236, while 1000 plus their sum is
    1044.1176470588234; and after the fall to a close of zero the one
    profit is NaN, the balance is NaN, and NaN is equal to nothing, not to
    the balance itself. *)
Lemma C1_sum_refuted :
  (exists st,
     Backtest.detectPriceSpikes Backtest.threshold Backtest.initialBalance overlapping
       "BTC/USDT" = Some st /\
     Backtest.currentBalance st = 1044.1176470588236 /\
     Backtest.initialBalance + Backtest.sumProfits (Backtest.trades st)
       = 1044.1176470588234 /\
     Backtest.ledgerBySum Backtest.initialBalance st = false) /\
  (exists st,
     Backtest.detectPriceSpikes Backtest.threshold Backtest.initialBalance toZero
       "BTC/USDT" = Some st /\
     Backtest.currentBalance st = NaN /\
     Backtest.ledgerBySum Backtest.initialBalance st = false /\
     (Backtest.currentBalance st
        =? Backtest.addProfits Backtest.initialBalance (Backtest.trades st)) = false).
Proof.
  split.
  - eexists. split; [vm_compute; reflexivity|]. repeat split; vm_compute; reflexivity.
  - eexists. split; [vm_compute; reflexivity|]. repeat split; vm_compute; reflexivity.
Qed.



(** ** Spike detection *)

(** A change whose magnitude is above a threshold that is not negative,
    and which is not greater than zero, is less than zero. *)
Lemma magnitude_sign (threshold change : number) :
  (0 <=? threshold) = true -> (threshold <? Math_abs change) = true ->
  (0 <? change) = false -> (change <? 0) = true.
Proof.
  unfold Math_abs.
  rewrite FloatAxioms.leb_spec, !FloatAxioms.ltb_spec, FloatAxioms.abs_spec.
  change (Prim2SF 0) with (S754_zero false).
  destruct (Prim2SF change) as [s|s| |s m e], (Prim2SF threshold) as [st|st| |st mt et];
    cbn; try discriminate; try (destruct s; discriminate); try (destruct st; discriminate);
    try (destruct s; intros; first [reflexivity | discriminate]).
Qed.

(** C3. The change is the quotient (current - previous) / previous, as
    binary64 computes it, for a previous close greater than zero as for any
    other; a signal is emitted exactly when the magnitude of the change is
    greater than the threshold, so a magnitude equal to the threshold emits
    nothing; the signal is Short when the change is greater than zero and
    Long when it is less, and with a threshold that is not negative a Long
    signal has a change less than zero.  The loop of the backtest at an
    index with these two closes acts on this signal, and so does the
    monitor when the exchange has answered with enough volume and a window
    that ends with these two candles: on a Long signal it goes on to place
    the order, and otherwise it returns. *)
Theorem C3_spike_detection (threshold : number) (previous current : OHLCV) :
  let change := (close current - close previous) / close previous in
  let signal := spike threshold (close previous) (close current) in
  priceChange (close previous) (close current) = change /\
  ((Math_abs change >? threshold) = true <-> signal <> None) /\
  ((Math_abs change =? threshold) = true -> signal = None) /\
  ((Math_abs change >? threshold) = true -> (change >? 0) = true ->
   signal = Some (change, true)) /\
  ((Math_abs change >? threshold) = true -> (change <? 0) = true ->
   signal = Some (change, false)) /\
  ((0 <=? threshold) = true -> signal = Some (change, false) -> (change <? 0) = true) /\
  (forall data symbol i st,
     (1 <= i)%nat ->
     nth_error data (i - 1) = Some previous -> nth_error data i = Some current ->
     Backtest.spikeStep threshold data symbol i st =
       match signal with
       | None => Some (Continue st)
       | Some (ch, isShort) =>
           r <- Backtest.executeTrade data i ch isShort (Backtest.currentBalance st)
                  (print (Backtest.spikeLine symbol previous current ch isShort)
                     (Backtest.world st)) ;;
           Some (Continue (Backtest.recordTrade i (fst r) (snd r) st))
       end) /\
  (forall (W : Type) (sv : Services W) symbol (s : Run W) quoteVolume w1 t w2 data w3,
     fetchTicker sv symbol (env s) = (Fulfilled quoteVolume, w1) ->
     (orZero quoteVolume <? Live.volumeThreshold) = false ->
     now sv w1 = (t, w2) ->
     fetchOHLCV sv symbol Live.timeframe (t - 2 * 5 * 60 * 1000) 2 w2
       = (Fulfilled data, w3) ->
     (2 <= List.length data)%nat ->
     nth_error data (List.length data - 2) = Some previous ->
     nth_error data (List.length data - 1) = Some current ->
     let asked :=
       {| env := w3;
          trace := (trace s ++ [FetchTicker symbol])
                   ++ [FetchOHLCV symbol Live.timeframe (t - 2 * 5 * 60 * 1000) 2] |} in
     LiveIO.detectPriceSpikes W sv threshold symbol s =
       match signal with
       | Some (_, false) =>
           LiveIO.placeOrder W sv symbol Buy (Live.orderAmount / close current)
             (close current) (close current * (1 + threshold))
             (close current * (1 - threshold)) asked
       | _ => (Returned tt, asked)
       end).
Proof.
  intros change signal.
  assert (Hsig : signal = if threshold <? Math_abs change
                          then Some (change, 0 <? change) else None) by reflexivity.
  split; [reflexivity|].
  split; [|split; [|split; [|split; [|split; [|split]]]]].
  - rewrite Hsig. unfold gtb. destruct (threshold <? Math_abs change); split; congruence.
  - intros E. rewrite Hsig. rewrite (proj2 (eqb_not_ltb _ _ E)). reflexivity.
  - unfold gtb. intros Hthr Hc. rewrite Hsig, Hthr, Hc. reflexivity.
  - unfold gtb. intros Hthr Hc. rewrite Hsig, Hthr, (ltb_asym _ _ Hc). reflexivity.
  - intros Hpos. rewrite Hsig.
    destruct (threshold <? Math_abs change) eqn:Hthr; [|discriminate].
    intros Hs. injection Hs as Hs. exact (magnitude_sign _ _ Hpos Hthr Hs).
  - intros data symbol i st Hi Hp Hc. unfold Backtest.spikeStep.
    rewrite before_nth by exact Hi. rewrite Hp, Hc. cbn [bind]. fold signal.
    destruct signal as [[ch isShort]|]; reflexivity.
  - intros W sv symbol s quoteVolume w1 t w2 data w3 Hticker Hvol Hnow Hcandles Hlen Hp Hc
           asked.
    unfold LiveIO.detectPriceSpikes, LiveIO.get24hVolume, LiveIO.fetchLatestOHLCV.
    unfold bindM at 1 2. unfold await, ret. rewrite Hticker, Hvol.
    unfold bindM. cbn [env trace]. rewrite Hnow, Hcandles.
    destruct (Nat.ltb_spec (List.length data) 2); [lia|].
    rewrite Hp, Hc. fold signal. fold asked.
    destruct signal as [[ch [|]]|]; reflexivity.
Qed.

(** From 100 to 98 at the threshold of the backtest the change is -0.02 and
    the signal is Long; from 157.6 to 155.5512 the change as computed is
    -0.013, and at the threshold 0.013 of the monitor there is no signal. *)
Lemma C3_spike_detection_witness :
  spike Backtest.threshold 100 98 = Some (-0.02, false) /\
  priceChange 157.6 155.5512 = -0.013 /\
  spike Live.threshold 157.6 155.5512 = None.
Proof.
  split; [|split].
  - exact (proj1 (proj2 (proj2 (proj2 (proj2
      (C3_spike_detection Backtest.threshold (flat 1704067200000 100)
         (flat 1704067500000 98)))))) eq_refl eq_refl).
  - reflexivity.
  - exact (proj1 (proj2 (proj2
      (C3_spike_detection Live.threshold (flat 1704067200000 157.6)
         (flat 1704067500000 155.5512)))) eq_refl).
Defined.

(** ** Target and stop *)

(** C4, as the code has it.  For a trade opened at the price E on a spike
    of magnitude mag = abs(change), the target is E - (mag/2)*E for Short
    and E + (mag/2)*E for Long, and the stop is E + mag*E for Short and
    E - mag*E for Long, each product and each sum rounded; these are the
    prices the scan of executeTrade compares the candles with: the trade
    ends at the first later candle that meets this target or else this
    stop, or at the end of the data. *)
Theorem C4_target_and_stop (data : list OHLCV) (index : nat) (change : number)
    (isShort : bool) (currentBalance : number) (w : World) (rw : TradeResult * World) :
  Backtest.executeTrade data index change isShort currentBalance w = Some rw ->
  exists entry v,
    nth_error data index = Some entry /\
    (let E := close entry in
     let mag := Math_abs change in
     Backtest.targetPrice isShort E mag
       = (if isShort then E - (mag / 2) * E else E + (mag / 2) * E) /\
     Backtest.stopLossPrice isShort E mag
       = (if isShort then E + mag * E else E - mag * E) /\
     Backtest.Resolves data index isShort E
       (if isShort then E - (mag / 2) * E else E + (mag / 2) * E)
       (if isShort then E + mag * E else E - mag * E)
       (Backtest.openVars currentBalance w) v) /\
    rw = Backtest.resultOf v.
Proof.
  intros H.
  destruct (executeTrade_resolves _ _ _ _ _ _ _ H) as (entry & v & He & Hres & Hrw).
  exists entry, v. split; [exact He|]. split; [|exact Hrw].
  split; [reflexivity|]. split; [reflexivity|]. exact Hres.
Qed.

(** The Long position of [atStop] ends on its stop at the candle whose
    high is 96.04. *)
Lemma C4_target_and_stop_witness :
  exists v,
    Backtest.Resolves atStop 1 false 98
      (98 + (Math_abs (priceChange 100 98) / 2) * 98)
      (98 - Math_abs (priceChange 100 98) * 98)
      (Backtest.openVars 1000 emptyWorld) v /\
    Backtest.positionOpened v = false.
Proof.
  destruct (Backtest.executeTrade atStop 1 (priceChange 100 98) false 1000 emptyWorld)
    as [rw|] eqn:E; [|vm_compute in E; discriminate E].
  destruct (C4_target_and_stop _ _ _ _ _ _ _ E) as (entry & v & He & (_ & _ & Hres) & Hrw).
  cbn in He. injection He as <-. exists v. split; [exact Hres|].
  destruct Hres as [i c month Hi Hq Hc Hm Ht | i c month Hi Hq Hc Hm Ht Hs | c month Hq Hc Hm];
    [reflexivity | reflexivity |].
  exfalso. assert (Hq2 := Hq 2%nat ltac:(cbn; lia)).
  destruct Hq2 as (c2 & Hc2 & _ & _ & Hs2). cbn in Hc2. injection Hc2 as <-.
  vm_compute in Hs2. discriminate Hs2.
Defined.

(** The prices of the specification are not those of the code.  For the
    Long position opened at 98 after the fall from 100 the code has the
    stop 98 - 0.02*98 = 96.04, and E*(1 - mag) is 96.03999999999999, a
    lower number; the candle of [atStop] with its high at 96.04 meets the
    first and not the second, and executeTrade ends the trade there with a
    stop loss. *)
Lemma C4_formula_refuted :
  Backtest.stopLossPrice false 98 (Math_abs (priceChange 100 98)) = 96.04 /\
  Backtest.specStopPrice false 98 (Math_abs (priceChange 100 98)) = 96.03999999999999 /\
  (96.03999999999999 <? 96.04) = true /\
  Backtest.stopMet false (Backtest.specStopPrice false 98 (Math_abs (priceChange 100 98)))
    (candle 1704067800000 96.04 96.04 96 96) = false /\
  exists r w' loss bal,
    Backtest.executeTrade atStop 1 (priceChange 100 98) false 1000 emptyWorld
      = Some (r, w') /\
    console w' = [StopLossHit false 1704067800000 98 96.04 loss bal].
Proof.
  split; [reflexivity|]. split; [reflexivity|]. split; [reflexivity|].
  split; [reflexivity|].
  do 4 eexists. split; vm_compute; reflexivity.
Qed.

(** ** The order of the tests *)

(** C5. At each candle the scan compares the low for a Short position and
    the high for a Long one with the target and the stop, and it tests the
    target first: a candle that meets the target ends the trade as a win
    whatever the stop test would say.  So when the first candle after the
    opening spans both the target and the stop, the trade is a win at that
    candle, at its low for Short and its high for Long. *)
Theorem C5_target_before_stop (data : list OHLCV) (index : nat) (change : number)
    (isShort : bool) (currentBalance : number) (w : World) (entry next : OHLCV) :
  nth_error data index = Some entry ->
  nth_error data (index + 1) = Some next ->
  validTime (timestamp next) = true ->
  let E := close entry in
  let target := Backtest.targetPrice isShort E (Math_abs change) in
  let stopLoss := Backtest.stopLossPrice isShort E (Math_abs change) in
  let touch := if isShort then low next else high next in
  (if isShort then (low next <=? target) && (high next >=? stopLoss)
   else (high next >=? target) && (low next <=? stopLoss)) = true ->
  (forall i c month v,
     nth_error data i = Some c -> monthKey (timestamp c) = Some month ->
     Backtest.tradeStep data isShort E target stopLoss i v =
       if (if isShort then low c <=? target else high c >=? target)
       then Some (Break (Backtest.wonAt isShort E c month v))
       else if (if isShort then low c >=? stopLoss else high c <=? stopLoss)
       then Some (Break (Backtest.lostAt isShort E c month v))
       else Some (Continue v)) /\
  exists month p,
    monthKey (timestamp next) = Some month /\
    p = (if isShort then (E - touch) / E * currentBalance
         else (touch - E) / E * currentBalance) /\
    Backtest.executeTrade data index change isShort currentBalance w =
      Some ({| balance := currentBalance + p; profit := p |},
            print (TakeProfitHit isShort (timestamp next) E touch p (currentBalance + p))
              (credit month p w)).
Proof.
  intros He Hn Hv E target stopLoss touch Hspan. split.
  - intros i c month v Hc Hm.
    exact (tradeStep_cases _ _ _ _ _ _ _ _ _ Hc Hm).
  - destruct (monthKey (timestamp next)) as [month|] eqn:Hm;
      [|exfalso; apply monthKey_valid in Hv; exact (Hv Hm)].
    assert (Ht : Backtest.targetMet isShort target next = true).
    { unfold Backtest.targetMet. destruct isShort;
        apply andb_true_iff in Hspan; exact (proj1 Hspan). }
    exists month. eexists. split; [reflexivity|]. split; [reflexivity|].
    assert (Hlen : (index + 1 < List.length data)%nat)
      by (apply nth_error_Some; congruence).
    rewrite (resolves_executeTrade data index change isShort currentBalance w entry
               (Backtest.wonAt isShort E next month (Backtest.openVars currentBalance w)) He).
    + unfold Backtest.resultOf, Backtest.wonAt, Backtest.winProfit, Backtest.touchPrice, touch.
      destruct isShort; reflexivity.
    + apply Backtest.TargetHit with (i := (index + 1)%nat); auto; [lia|].
      intros j Hj. lia.
Qed.

Lemma C5_target_before_stop_witness :
  exists month p,
    monthKey 1704067800000 = Some month /\
    p = (102 - 100) / 102 * 1000 /\
    Backtest.executeTrade spanning 1 (priceChange 100 102) true 1000 emptyWorld =
      Some ({| balance := 1000 + p; profit := p |},
            print (TakeProfitHit true 1704067800000 102 100 p (1000 + p))
              (credit month p emptyWorld)).
Proof.
  exact (proj2 (C5_target_before_stop spanning 1 (priceChange 100 102) true 1000
                  emptyWorld (flat 1704067500000 102)
                  (candle 1704067800000 102 105 100 103)
                  eq_refl eq_refl eq_refl eq_refl)).
Defined.

(** ** The end of the data *)

(** C6, as the code has it.  When no candle after the opening meets the
    target or the stop, the position is closed at the close of the last
    candle, with profit -(lastClose - entry)/entry * balance for Short and
    (lastClose - entry)/entry * balance for Long, under the month of the
    last candle.  When the position is opened at the last index, the last
    candle is the entry candle, and the profit is zero and the balance
    unchanged provided the entry price is a finite number other than zero
    and the balance is finite. *)
Theorem C6_closed_at_end (data : list OHLCV) (index : nat) (change : number)
    (isShort : bool) (currentBalance : number) (w : World) (entry last : OHLCV)
    (month : string) :
  nth_error data index = Some entry ->
  nth_error data (List.length data - 1) = Some last ->
  monthKey (timestamp last) = Some month ->
  let E := close entry in
  let target := Backtest.targetPrice isShort E (Math_abs change) in
  let stopLoss := Backtest.stopLossPrice isShort E (Math_abs change) in
  let lastChange := (close last - E) / E * currentBalance in
  let p := if isShort then - lastChange else lastChange in
  let closed :=
    Some ({| balance := currentBalance + p; profit := p |},
          print (ClosedAtEnd (timestamp last) E (close last) (currentBalance + p))
            (credit month p w)) in
  ((forall j, (index < j < List.length data)%nat ->
      Backtest.quiet data isShort target stopLoss j) ->
   Backtest.executeTrade data index change isShort currentBalance w = closed) /\
  (index = (List.length data - 1)%nat ->
   PrimFloat.is_finite E = true -> PrimFloat.is_zero E = false ->
   PrimFloat.is_finite currentBalance = true ->
   last = entry /\ (p =? 0) = true /\ (currentBalance + p =? currentBalance) = true /\
   Backtest.executeTrade data index change isShort currentBalance w = closed).
Proof.
  intros He Hl Hm E target stopLoss lastChange p closed.
  assert (Hquiet : (forall j, (index < j < List.length data)%nat ->
                      Backtest.quiet data isShort target stopLoss j) ->
                   Backtest.executeTrade data index change isShort currentBalance w = closed).
  { intros Hq.
    rewrite (resolves_executeTrade data index change isShort currentBalance w entry
               (Backtest.closedAt isShort E last month
                  (Backtest.openVars currentBalance w)) He).
    - reflexivity.
    - apply Backtest.EndOfData; assumption. }
  split; [exact Hquiet|].
  intros Hi Hfin Hnz Hbal. subst index.
  assert (Heq : last = entry) by congruence. subst last.
  split; [reflexivity|].
  assert (Hp : PrimFloat.is_zero p = true).
  { assert (Hlc : PrimFloat.is_zero lastChange = true).
    { subst lastChange. fold E. rewrite (sub_diag E Hfin).
      apply mul_zero_l; [|exact Hbal]. apply div_zero_l; [reflexivity | exact Hfin | exact Hnz]. }
    subst p. destruct isShort; [apply opp_zero; exact Hlc | exact Hlc]. }
  split; [exact Hp|]. split.
  - apply add_zero_r; [exact Hp | exact Hbal].
  - apply Hquiet. intros j Hj. lia.
Qed.

(** The Short position opened at the last index of [scenario1]. *)
Lemma C6_closed_at_end_witness :
  Backtest.executeTrade scenario1 2 (priceChange 98 102) true 1000 emptyWorld
    = Some ({| balance := 1000 + - ((102 - 102) / 102 * 1000);
               profit := - ((102 - 102) / 102 * 1000) |},
            print (ClosedAtEnd 1704067800000 102 102
                     (1000 + - ((102 - 102) / 102 * 1000)))
              (credit "2024-01" (- ((102 - 102) / 102 * 1000)) emptyWorld)) /\
  (- ((102 - 102) / 102 * 1000) =? 0) = true.
Proof.
  destruct (proj2 (C6_closed_at_end scenario1 2 (priceChange 98 102) true 1000
                     emptyWorld (flat 1704067800000 102) (flat 1704067800000 102)
                     "2024-01" eq_refl eq_refl eq_refl)
              eq_refl eq_refl eq_refl eq_refl) as (_ & Hp & _ & Hex).
  split; [exact Hex | exact Hp].
Defined.

(** With an entry price of zero the position opened at the last index has
    neither a profit of zero nor an unchanged balance: both are NaN, and so
    is the final balance of the run. *)
Lemma C6_zero_entry_refuted :
  spike Backtest.threshold 1 0 = Some (priceChange 1 0, false) /\
  (exists w',
     Backtest.executeTrade toZero 1 (priceChange 1 0) false 1000 emptyWorld
       = Some ({| balance := NaN; profit := NaN |}, w')) /\
  (NaN =? 0) = false /\ (NaN =? 1000) = false /\
  option_map Backtest.currentBalance
    (Backtest.detectPriceSpikes Backtest.threshold Backtest.initialBalance toZero
       "BTC/USDT") = Some NaN.
Proof.
  split; [vm_compute; reflexivity|].
  split; [eexists; vm_compute; reflexivity|].
  split; [reflexivity|]. split; [reflexivity|].
  vm_compute; reflexivity.
Qed.

(** ** Prices that are not positive *)

(** Nothing is less than NaN. *)
Lemma ltb_nan_r (x : number) : (x <? NaN) = false.
Proof.
  rewrite FloatAxioms.ltb_spec. change (Prim2SF NaN) with S754_nan.
  destruct (Prim2SF x) as [s|s| |s m e]; reflexivity.
Qed.

(** Over a previous close of zero a positive close gives the infinity of
    the sign of the zero, and a negative close the other one. *)
Lemma priceChange_zero_base (z currentPrice : number) (s : bool) :
  Prim2SF z = S754_zero s ->
  ((currentPrice >? 0) = true ->
   priceChange z currentPrice = if s then - Infinity else Infinity) /\
  ((currentPrice <? 0) = true ->
   priceChange z currentPrice = if s then Infinity else - Infinity).
Proof.
  intros Hz. unfold gtb, priceChange. rewrite !FloatAxioms.ltb_spec.
  change (Prim2SF 0) with (S754_zero false).
  split; intros H; apply Prim2SF_inj;
    rewrite FloatAxioms.div_spec, FloatAxioms.sub_spec, Hz;
    destruct (Prim2SF currentPrice) as [sc|sc| |sc mc ec]; try discriminate H;
    destruct sc; try discriminate H; destruct s; reflexivity.
Qed.

(** Zero after zero: 0/0. *)
Lemma priceChange_zero_zero (z currentPrice : number) :
  PrimFloat.is_zero z = true -> PrimFloat.is_zero currentPrice = true ->
  priceChange z currentPrice = NaN.
Proof.
  intros Hz Hc. apply is_zero_SF in Hz, Hc. destruct Hz as [s Hz], Hc as [sc Hc].
  unfold priceChange. apply Prim2SF_inj.
  rewrite FloatAxioms.div_spec, FloatAxioms.sub_spec, Hz, Hc.
  destruct s, sc; reflexivity.
Qed.

(** C7, as the code has it.  No price makes a computation fail: the run
    ends whenever the dates of the candles are valid, whatever the prices;
    an iteration passes over its index when the spike test gives no signal
    and records a trade otherwise.  The test divides by the previous close
    as it is, whatever its sign.  By a close of zero the quotient is an
    infinity or NaN: after 0 a positive close gives Infinity (a Short
    signal) and a negative one -Infinity (a Long signal); after -0 it is the
    other way round, a positive close gives -Infinity and a Long signal; and
    a close of zero after a close of zero gives NaN and no signal. *)
Theorem C7_no_price_guard (threshold initialBalance : number) (data : list OHLCV)
    (symbol : string) :
  (Backtest.validDates data ->
   exists st, Backtest.detectPriceSpikes threshold initialBalance data symbol = Some st) /\
  (forall i st c,
     Backtest.spikeStep threshold data symbol i st = Some c ->
     (Backtest.isSpike threshold data i = false /\ c = Continue st) \/
     (Backtest.isSpike threshold data i = true /\
      exists r w', c = Continue (Backtest.recordTrade i r w' st))) /\
  (forall previousPrice currentPrice,
     spike threshold previousPrice currentPrice <> None <->
     (Math_abs ((currentPrice - previousPrice) / previousPrice) >? threshold) = true) /\
  (forall currentPrice,
     (threshold <? Infinity) = true ->
     ((currentPrice >? 0) = true ->
      spike threshold 0 currentPrice = Some (Infinity, true) /\
      spike threshold (-0) currentPrice = Some (- Infinity, false)) /\
     ((currentPrice <? 0) = true ->
      spike threshold 0 currentPrice = Some (- Infinity, false) /\
      spike threshold (-0) currentPrice = Some (Infinity, true))) /\
  (forall previousPrice currentPrice,
     PrimFloat.is_zero previousPrice = true -> PrimFloat.is_zero currentPrice = true ->
     priceChange previousPrice currentPrice = NaN /\
     spike threshold previousPrice currentPrice = None).
Proof.
  split; [|split; [|split; [|split]]].
  - intros Hv.
    destruct (Backtest.detectPriceSpikes threshold initialBalance data symbol)
      as [st|] eqn:E; [exists st; reflexivity|].
    exfalso. exact (detectPriceSpikes_total _ _ _ _ Hv E).
  - intros i st c. apply spikeStep_spikeAt.
  - intros previousPrice currentPrice. unfold spike, priceChange.
    destruct (Math_abs ((currentPrice - previousPrice) / previousPrice) >? threshold);
      split; congruence.
  - intros currentPrice Hthr.
    destruct (priceChange_zero_base 0 currentPrice false eq_refl) as [Hp Hn].
    destruct (priceChange_zero_base (-0) currentPrice true eq_refl) as [Hp' Hn'].
    unfold spike, gtb in *.
    split; intros H.
    + rewrite (Hp H), (Hp' H). change (Math_abs Infinity) with Infinity.
      change (Math_abs (- Infinity)) with Infinity. rewrite Hthr. split; reflexivity.
    + rewrite (Hn H), (Hn' H). change (Math_abs Infinity) with Infinity.
      change (Math_abs (- Infinity)) with Infinity. rewrite Hthr. split; reflexivity.
  - intros previousPrice currentPrice Hz Hc.
    pose proof (priceChange_zero_zero _ _ Hz Hc) as Hnan.
    split; [exact Hnan|]. unfold spike, gtb. rewrite Hnan.
    change (Math_abs NaN) with NaN. rewrite ltb_nan_r. reflexivity.
Qed.

(** The run over a rise from a close of zero ends; and at the threshold of
    the backtest a close of 5 after a close of -0 gives a Long signal. *)
Lemma C7_no_price_guard_witness :
  (exists st,
     Backtest.detectPriceSpikes Backtest.threshold Backtest.initialBalance fromZero
       "BTC/USDT" = Some st) /\
  spike Backtest.threshold (-0) 5 = Some (- Infinity, false).
Proof.
  split.
  - apply (proj1 (C7_no_price_guard Backtest.threshold Backtest.initialBalance fromZero
                    "BTC/USDT")).
    repeat constructor.
  - exact (proj2 (proj1 (proj1 (proj2 (proj2 (proj2
             (C7_no_price_guard Backtest.threshold Backtest.initialBalance fromZero
                "BTC/USDT")))) 5 eq_refl) eq_refl)).
Defined.

(** With a previous close of zero, and with an entry price of zero, nothing
    fails and nothing is skipped: the quotient is computed (from 0 to 5 it
    is Infinity, and the line of the spike prints it), and a trade is opened
    at the index and recorded. *)
Lemma C7_guard_refuted :
  priceChange 0 5 = Infinity /\
  spike Backtest.threshold 0 5 = Some (Infinity, true) /\
  (exists st r,
     Backtest.detectPriceSpikes Backtest.threshold Backtest.initialBalance fromZero
       "BTC/USDT" = Some st /\
     Backtest.totalTrades st = 1%nat /\ Backtest.trades st = [(1%nat, r)] /\
     nth_error (console (Backtest.world st)) 0
       = Some (SpikeDetected true 1704067500000 "BTC/USDT" 0 5 Infinity 1)) /\
  (exists st r,
     Backtest.detectPriceSpikes Backtest.threshold Backtest.initialBalance toZero
       "BTC/USDT" = Some st /\
     Backtest.totalTrades st = 1%nat /\ Backtest.trades st = [(1%nat, r)] /\
     nth_error (console (Backtest.world st)) 1
       = Some (ClosedAtEnd 1704067500000 0 0 NaN)).
Proof.
  split; [reflexivity|]. split; [reflexivity|]. split.
  - do 2 eexists. split; [vm_compute; reflexivity|].
    repeat split; reflexivity.
  - do 2 eexists. split; [vm_compute; reflexivity|].
    repeat split; reflexivity.
Qed.

(** ** The order of the scan *)

(** C8. The loop of the backtest visits the indices one by one: the locals
    after the iteration at index n are those after the iterations below n
    moved by the iteration at n, which never leaves the loop; so the trades
    recorded are exactly those of the indices at which the spike test gives
    a signal, whatever candles the scans of the earlier trades have read,
    and a position can be opened while an earlier one is still open. *)
Theorem C8_scan_advances_by_one (threshold initialBalance : number) (data : list OHLCV)
    (symbol : string) :
  (forall n,
     (1 <= n)%nat ->
     Backtest.spikeLoop threshold initialBalance data symbol (S n) =
       (st <- Backtest.spikeLoop threshold initialBalance data symbol n ;;
        c <- Backtest.spikeStep threshold data symbol n st ;;
        match c with Continue st' | Break st' => Some st' end)) /\
  (forall i st st', Backtest.spikeStep threshold data symbol i st <> Some (Break st')) /\
  (forall n st,
     Backtest.spikeLoop threshold initialBalance data symbol n = Some st ->
     map fst (Backtest.trades st)
       = filter (Backtest.isSpike threshold data) (range 1 n)) /\
  (forall st,
     Backtest.detectPriceSpikes threshold initialBalance data symbol = Some st ->
     map fst (Backtest.trades st)
       = filter (Backtest.isSpike threshold data) (range 1 (List.length data))).
Proof.
  split; [|split; [|split]].
  - intros n Hn. apply spikeLoop_S. exact Hn.
  - intros i st st'. apply spikeStep_continues.
  - intros n st. apply trades_indices.
  - intros st H. destruct (detectPriceSpikes_inv _ _ _ _ _ H)
      as (st0 & Hloop & _ & _ & _ & _ & Ht & _).
    rewrite Ht. exact (trades_indices _ _ _ _ _ _ Hloop).
Qed.

(** In [overlapping] the position opened at index 1 ends at index 3 (the
    second line of the console is its exit, dated by the candle of index 3),
    and positions are opened at the indices 2 and 3 all the same. *)
Lemma C8_scan_advances_by_one_witness :
  exists st gain bal,
    Backtest.detectPriceSpikes Backtest.threshold Backtest.initialBalance overlapping
      "BTC/USDT" = Some st /\
    nth_error (console (Backtest.world st)) 1
      = Some (TakeProfitHit true 1704068100000 102 100.5 gain bal) /\
    map fst (Backtest.trades st) = [1; 2; 3]%nat.
Proof.
  destruct (Backtest.detectPriceSpikes Backtest.threshold Backtest.initialBalance
              overlapping "BTC/USDT") as [st|] eqn:E; [|vm_compute in E; discriminate].
  pose proof (proj2 (proj2 (proj2 (C8_scan_advances_by_one Backtest.threshold
                Backtest.initialBalance overlapping "BTC/USDT"))) st E) as H.
  exists st. vm_compute in E. injection E as <-.
  do 2 eexists. split; [reflexivity|]. split; [vm_compute; reflexivity|].
  rewrite H. vm_compute. reflexivity.
Defined.

(** ** The first scenario *)

(** C9, as the code has it.  For a series with closes 100, 98, 102 and
    threshold 0.01 the test at index 1 finds a change of -2% and flags a
    Long signal with entry price 98; the target is 98 + (0.02/2)*98 = 98.98
    and the stop is 98 - 0.02*98 = 96.04. *)
Theorem C9_scenario_long (data : list OHLCV) :
  map close data = [100; 98; 102] ->
  let change := priceChange 100 98 in
  Backtest.spikeAt 0.01 data 1 = Some (change, false) /\
  change = -0.02 /\
  option_map close (nth_error data 1) = Some 98 /\
  Backtest.targetPrice false 98 (Math_abs change) = 98.98 /\
  Backtest.stopLossPrice false 98 (Math_abs change) = 96.04.
Proof.
  intros H change.
  destruct data as [|c0 [|c1 [|c2 [|c3 rest]]]]; try discriminate.
  cbn in H. injection H as H0 H1 H2.
  unfold Backtest.spikeAt. cbn [before nth_error option_map]. rewrite H0, H1.
  repeat split; reflexivity.
Qed.

Lemma C9_scenario_long_witness :
  map close scenario1 = [100; 98; 102] /\
  Backtest.spikeAt 0.01 scenario1 1 = Some (priceChange 100 98, false).
Proof.
  split; [reflexivity|].
  exact (proj1 (C9_scenario_long scenario1 eq_refl)).
Defined.

(** There is no Short signal with target 97.02 and stop 99.96 at index 1:
    the change from 100 to 98 is negative, and the signal is Long. *)
Lemma C9_short_refuted :
  ~ exists change,
      Backtest.spikeAt 0.01 scenario1 1 = Some (change, true) /\
      Backtest.targetPrice true 98 (Math_abs change) = 97.02 /\
      Backtest.stopLossPrice true 98 (Math_abs change) = 99.96.
Proof.
  intros (change & H & _). vm_compute in H. discriminate.
Qed.

(** ** Signs of the profits *)

Lemma targetMet_touch (isShort : bool) (target : number) (c : OHLCV) :
  Backtest.targetMet isShort target c =
    if isShort then Backtest.touchPrice true c <=? target
    else Backtest.touchPrice false c >=? target.
Proof. destruct isShort; reflexivity. Qed.

Lemma stopMet_touch (isShort : bool) (stopLoss : number) (c : OHLCV) :
  Backtest.stopMet isShort stopLoss c =
    if isShort then Backtest.touchPrice true c >=? stopLoss
    else Backtest.touchPrice false c <=? stopLoss.
Proof. destruct isShort; reflexivity. Qed.




(** ** Further properties of the backtest *)

Lemma spikeStep_no_spike (threshold : number) (data : list OHLCV) (symbol : string)
    (i : nat) (st : Backtest.State) :
  (1 <= i < List.length data)%nat -> Backtest.isSpike threshold data i = false ->
  Backtest.spikeStep threshold data symbol i st = Some (Continue st).
Proof.
  intros Hi Hs. unfold Backtest.isSpike, Backtest.spikeAt in Hs.
  unfold Backtest.spikeStep.
  destruct (before data i) as [p|] eqn:Ep;
    [|rewrite before_nth in Ep by lia; apply nth_error_None in Ep; lia].
  destruct (nth_error data i) as [c|] eqn:Ec; [|apply nth_error_None in Ec; lia].
  cbn [bind]. destruct (spike threshold (close p) (close c)) as [[ch s]|];
    [discriminate | reflexivity].
Qed.

Lemma spikeLoop_no_spike (threshold initialBalance : number) (data : list OHLCV)
    (symbol : string) (n : nat) :
  (n <= List.length data)%nat ->
  (forall i, (1 <= i < n)%nat -> Backtest.isSpike threshold data i = false) ->
  Backtest.spikeLoop threshold initialBalance data symbol n
    = Some (Backtest.initialState initialBalance).
Proof.
  induction n as [|n IH]; intros Hn Hq; [reflexivity|].
  destruct n as [|n]; [reflexivity|].
  rewrite spikeLoop_S by lia.
  rewrite IH; [|lia|intros i Hi; apply Hq; lia].
  cbn [bind]. rewrite spikeStep_no_spike; [reflexivity|lia|apply Hq; lia].
Qed.

(** X1. A series in which no index gives a signal (an empty series or a
    single candle among them) leaves the run without a trade: the balance
    is the initial balance, the counters are zero, no month is recorded,
    and the summary prints a win rate of NaN (zero over zero); no date is
    read, so the run ends whatever the dates are. *)
Theorem X1_no_signal_no_trade (threshold initialBalance : number) (data : list OHLCV)
    (symbol : string) :
  (forall i, (1 <= i < List.length data)%nat ->
     Backtest.isSpike threshold data i = false) ->
  Backtest.detectPriceSpikes threshold initialBalance data symbol
    = Some (untouched initialBalance symbol).
Proof.
  intros Hq. unfold Backtest.detectPriceSpikes.
  rewrite spikeLoop_no_spike; [reflexivity|lia|exact Hq].
Qed.

Lemma X1_no_signal_no_trade_witness :
  Backtest.detectPriceSpikes Backtest.threshold Backtest.initialBalance calm "BTC/USDT"
    = Some (untouched Backtest.initialBalance "BTC/USDT") /\
  Backtest.detectPriceSpikes Backtest.threshold Backtest.initialBalance [] "BTC/USDT"
    = Some (untouched Backtest.initialBalance "BTC/USDT").
Proof.
  split; apply X1_no_signal_no_trade; intros i Hi; cbn in Hi.
  - assert (i = 1%nat) by lia. subst i. reflexivity.
  - lia.
Defined.

(** NaN in, NaN out. *)
Lemma mul_nan_r (x : number) : x * NaN = NaN.
Proof.
  apply Prim2SF_inj. rewrite FloatAxioms.mul_spec. change (Prim2SF NaN) with S754_nan.
  destruct (Prim2SF x) as [s|s| |s m e]; reflexivity.
Qed.

Lemma add_nan_l (x : number) : NaN + x = NaN.
Proof.
  apply Prim2SF_inj. rewrite FloatAxioms.add_spec. change (Prim2SF NaN) with S754_nan.
  reflexivity.
Qed.

Lemma sub_nan_l (x : number) : NaN - x = NaN.
Proof.
  apply Prim2SF_inj. rewrite FloatAxioms.sub_spec. change (Prim2SF NaN) with S754_nan.
  reflexivity.
Qed.

(** A trade opened with a balance of NaN returns NaN twice. *)
Lemma executeTrade_nan (data : list OHLCV) (index : nat) (change : number)
    (isShort : bool) (w : World) (r : TradeResult) (w' : World) :
  Backtest.executeTrade data index change isShort NaN w = Some (r, w') ->
  balance r = NaN /\ profit r = NaN.
Proof.
  intros H. destruct (executeTrade_resolves _ _ _ _ _ _ _ H) as (entry & v & _ & Hres & Hrw).
  injection Hrw as -> _.
  destruct Hres as [i c month _ _ _ _ _ | i c month _ _ _ _ _ _ | c month _ _ _];
    cbn [Backtest.wonAt Backtest.lostAt Backtest.closedAt Backtest.openVars
         Backtest.tradeBalance Backtest.tradeProfit balance profit];
    unfold Backtest.winProfit, Backtest.lossAmount, Backtest.endProfit;
    destruct isShort; rewrite ?mul_nan_r; change (Math_abs NaN) with NaN;
    change (- NaN) with NaN; rewrite ?add_nan_l, ?sub_nan_l; split; reflexivity.
Qed.

(** X2. A balance of NaN is never left.  A trade opened with a balance of
    NaN returns NaN as its profit and as its balance and is counted as
    losing, whatever the candles; so once a trade of a run has returned a
    balance of NaN, as after a close of zero, the balance at the end of the
    run is NaN. *)
Theorem X2_nan_balance_stays (threshold initialBalance : number) (data : list OHLCV)
    (symbol : string) (st : Backtest.State) :
  Backtest.detectPriceSpikes threshold initialBalance data symbol = Some st ->
  (forall index change isShort w r w',
     Backtest.executeTrade data index change isShort NaN w = Some (r, w') ->
     balance r = NaN /\ profit r = NaN /\ (profit r >? 0) = false) /\
  (forall i r, In (i, r) (Backtest.trades st) -> balance r = NaN ->
     Backtest.currentBalance st = NaN).
Proof.
  intros H. split.
  - intros index change isShort w r w' Hex.
    destruct (executeTrade_nan _ _ _ _ _ _ _ Hex) as [Hb Hp].
    split; [exact Hb|]. split; [exact Hp|]. rewrite Hp. reflexivity.
  - destruct (detectPriceSpikes_inv _ _ _ _ _ H) as (st0 & Hloop & Hb & _ & _ & _ & Ht & _).
    rewrite Hb, Ht. revert Hloop.
    apply (spikeLoop_invariant threshold initialBalance data symbol
             (fun t => forall i r, In (i, r) (Backtest.trades t) -> balance r = NaN ->
                                   Backtest.currentBalance t = NaN)).
    + intros i r [].
    + intros i change isShort r w' t w Ht' Hex j r' Hin Hnan.
      cbn [Backtest.recordTrade Backtest.trades Backtest.currentBalance] in *.
      apply in_app_or in Hin. destruct Hin as [Hin|[E|[]]].
      * rewrite (Ht' j r' Hin Hnan) in Hex.
        exact (proj1 (executeTrade_nan _ _ _ _ _ _ _ Hex)).
      * injection E as _ <-. exact Hnan.
Qed.

(** After the fall to a close of zero the one trade returns NaN, and the
    balance at the end is NaN. *)
Lemma X2_nan_balance_stays_witness :
  exists st,
    Backtest.detectPriceSpikes Backtest.threshold Backtest.initialBalance toZero
      "BTC/USDT" = Some st /\
    Backtest.currentBalance st = NaN.
Proof.
  destruct (Backtest.detectPriceSpikes Backtest.threshold Backtest.initialBalance toZero
              "BTC/USDT") as [st|] eqn:E; [|vm_compute in E; discriminate E].
  exists st. split; [reflexivity|].
  refine (proj2 (X2_nan_balance_stays _ _ _ _ _ E) 1%nat {| balance := NaN; profit := NaN |} _ _);
    [|reflexivity].
  vm_compute in E. injection E as <-. left. reflexivity.
Defined.

Lemma forEach_ext {S : Type} (body body' : nat -> S -> option (ctl S)) (l : list nat) (s : S) :
  (forall i t, In i l -> body i t = body' i t) -> forEach body l s = forEach body' l s.
Proof.
  revert s. induction l as [|i l IH]; intros s H; cbn [forEach]; [reflexivity|].
  rewrite (H i s (or_introl eq_refl)).
  destruct (body' i s) as [[t|t]|]; try reflexivity.
  apply IH. intros j u Hj. apply H. right; exact Hj.
Qed.

Lemma forEach_map {S : Type} (body : nat -> S -> option (ctl S)) (f : nat -> nat)
    (l : list nat) (s : S) :
  forEach body (map f l) s = forEach (fun i => body (f i)) l s.
Proof.
  revert s. induction l as [|i l IH]; intros s; cbn [forEach map]; [reflexivity|].
  destruct (body (f i) s) as [[t|t]|]; try reflexivity. apply IH.
Qed.

Lemma range_shift (n lo hi : nat) :
  range (n + lo) (n + hi) = map (fun i => (n + i)%nat) (range lo hi).
Proof.
  unfold range. replace (n + hi - (n + lo))%nat with (hi - lo)%nat by lia.
  generalize (hi - lo)%nat as len. intros len. revert lo.
  induction len as [|len IH]; intros lo; cbn [seq map]; [reflexivity|].
  f_equal. rewrite <- IH. f_equal. lia.
Qed.

(** X7. A trade does not look back: what executeTrade returns for a
    position opened at an index is what it returns at index 0 of the series
    cut off before that index, so the candles before the opening have no
    part in the result. *)
Theorem X7_no_look_back (data : list OHLCV) (index : nat) (change : number)
    (isShort : bool) (currentBalance : number) (w : World) :
  Backtest.executeTrade data index change isShort currentBalance w
    = Backtest.executeTrade (skipn index data) 0 change isShort currentBalance w.
Proof.
  unfold Backtest.executeTrade.
  rewrite nth_error_skipn, Nat.add_0_r.
  destruct (nth_error data index) as [entry|] eqn:He; [|reflexivity].
  cbn [bind].
  assert (Hi : (index < List.length data)%nat) by (apply nth_error_Some; congruence).
  rewrite length_skipn.
  replace (range (index + 1) (List.length data))
    with (map (fun i => (index + i)%nat) (range (0 + 1) (List.length data - index))).
  2:{ rewrite <- range_shift. f_equal; lia. }
  rewrite forEach_map.
  rewrite (forEach_ext
             (fun i => Backtest.tradeStep data isShort (close entry)
                         (Backtest.targetPrice isShort (close entry) (Math_abs change))
                         (Backtest.stopLossPrice isShort (close entry) (Math_abs change))
                         (index + i))
             (Backtest.tradeStep (skipn index data) isShort (close entry)
                (Backtest.targetPrice isShort (close entry) (Math_abs change))
                (Backtest.stopLossPrice isShort (close entry) (Math_abs change)))).
  2:{ intros i t _. unfold Backtest.tradeStep. rewrite nth_error_skipn. reflexivity. }
  destruct (forEach _ _ _) as [v|]; [|reflexivity]. cbn [bind].
  unfold Backtest.closeAtEnd. rewrite length_skipn, nth_error_skipn.
  replace (index + (List.length data - index - 1))%nat with (List.length data - 1)%nat
    by lia.
  reflexivity.
Qed.

Lemma executeTrade_line (data : list OHLCV) (index : nat) (change : number)
    (isShort : bool) (bal : number) (w : World) (entry : OHLCV)
    (r : TradeResult) (w' : World) (t : Z) (symbol : string) (prev : number)
    (ch : number) (vol : number) :
  nth_error data index = Some entry ->
  Backtest.executeTrade data index change isShort bal w = Some (r, w') ->
  exists line,
    console w' = console w ++ [line] /\
    answers (SpikeDetected isShort t symbol prev (close entry) ch vol) line.
Proof.
  intros He H.
  destruct (executeTrade_resolves _ _ _ _ _ _ _ H) as (entry' & v & He' & Hres & Hrw).
  rewrite He in He'. injection He' as <-. injection Hrw as -> ->.
  destruct Hres as [i c month _ _ _ _ _ | i c month _ _ _ _ _ _ | c month _ _ _];
    eexists; (split; [reflexivity|]); cbn; auto.
Qed.

Lemma console_invariant (threshold initialBalance : number) (data : list OHLCV)
    (symbol : string) (n : nat) (st : Backtest.State) :
  Backtest.spikeLoop threshold initialBalance data symbol n = Some st ->
  Paired (console (Backtest.world st)) /\
  List.length (console (Backtest.world st)) = (2 * Backtest.totalTrades st)%nat.
Proof.
  unfold Backtest.spikeLoop.
  apply (forEach_invariant
           (fun t => Paired (console (Backtest.world t)) /\
                     List.length (console (Backtest.world t))
                       = (2 * Backtest.totalTrades t)%nat)).
  - intros i t c _ [Hp Hl] Hc.
    destruct (spikeStep_inv _ _ _ _ _ _ Hc)
      as (p & cu & _ & Hcu & [[_ ->] | (ch & s & r & w' & _ & Hex & ->)]).
    + split; assumption.
    + destruct (executeTrade_line _ _ _ _ _ _ _ _ _ (timestamp cu) symbol (close p)
                  (ch * 100) (volume cu) Hcu Hex) as (line & Hw & Ha).
      cbn [console print] in Hw. rewrite <- app_assoc in Hw. cbn [app] in Hw.
      cbn [Backtest.world Backtest.totalTrades Backtest.recordTrade]. rewrite Hw.
      split.
      * apply PairedSnoc; [exact Hp | exact Ha].
      * rewrite length_app. cbn [List.length]. lia.
  - split; [constructor | reflexivity].
Qed.

(** X8. The console of a run is, before the summary, a sequence of pairs:
    the line of a spike and right after it the line of the exit of the
    trade opened on that spike (same direction, entry price the current
    price of the spike), two lines for each trade; so the lines are in the
    order of the openings, whatever the order of the exits. *)
Theorem X8_console_pairs (threshold initialBalance : number) (data : list OHLCV)
    (symbol : string) (st : Backtest.State) :
  Backtest.detectPriceSpikes threshold initialBalance data symbol = Some st ->
  exists l,
    console (Backtest.world st) = l ++ Backtest.summary symbol st /\
    Paired l /\ List.length l = (2 * Backtest.totalTrades st)%nat.
Proof.
  intros H. destruct (detectPriceSpikes_inv _ _ _ _ _ H)
    as (st0 & Hloop & Hb & Ht & Hw & Hl & _ & Hm & Hc).
  destruct (console_invariant _ _ _ _ _ _ Hloop) as [Hp Hlen].
  exists (console (Backtest.world st0)). split; [|split].
  - rewrite Hc. f_equal. unfold Backtest.summary. rewrite Hb, Ht, Hw, Hl, Hm. reflexivity.
  - exact Hp.
  - rewrite Ht. exact Hlen.
Qed.

Lemma X8_console_pairs_witness :
  exists st l,
    Backtest.detectPriceSpikes Backtest.threshold Backtest.initialBalance overlapping
      "BTC/USDT" = Some st /\
    console (Backtest.world st) = l ++ Backtest.summary "BTC/USDT" st /\
    Paired l /\ List.length l = (2 * Backtest.totalTrades st)%nat.
Proof.
  destruct (Backtest.detectPriceSpikes Backtest.threshold Backtest.initialBalance
              overlapping "BTC/USDT") as [st|] eqn:E; [|vm_compute in E; discriminate].
  destruct (X8_console_pairs Backtest.threshold Backtest.initialBalance overlapping
              "BTC/USDT" st E) as (l & H).
  exists st, l. split; [reflexivity | exact H].
Defined.

(** ** Properties of the requests of the monitor *)

(** Case analysis on the answer to the next request in the hypothesis. *)
Ltac oracle H :=
  match type of H with
  | context [createOrder ?sv ?a ?b ?c ?d ?e ?w] =>
      destruct (createOrder sv a b c d e w) as [[?|?] ?] eqn:?
  | context [fetchBalance ?sv ?w] => destruct (fetchBalance sv w) as [[?|?] ?] eqn:?
  | context [fetchTicker ?sv ?a ?w] => destruct (fetchTicker sv a w) as [[?|?] ?] eqn:?
  | context [fetchOHLCV ?sv ?a ?b ?c ?d ?w] =>
      destruct (fetchOHLCV sv a b c d w) as [[?|?] ?] eqn:?
  | context [loadMarkets ?sv ?w] => destruct (loadMarkets sv w) as [[?|?] ?] eqn:?
  | context [post ?sv ?m ?w] => destruct (post sv m w) as [[[]|?] ?] eqn:?
  | context [now ?sv ?w] => destruct (now sv w) as [? ?] eqn:?
  end;
  cbn [env trace fst snd] in H.

Section PlaceOrder.

Variable W : Type.
Variable sv : Services W.
Variables (symbol : string) (side : Side) (amountMarket : number) (price : number).
Variables (takeProfit stopLoss : number).

(** A call of [placeOrder] sends its five requests and returns, or it meets
    a rejection at one of them, sends the notification of the error, and
    returns, unless that notification is rejected too.  The amount in its
    first message and the amount of its limit order are those the exchange
    has reported. *)
Lemma placeOrder_traces (s s' : Run W) (r : outcome unit) :
  LiveIO.placeOrder W sv symbol side amountMarket price takeProfit stopLoss s = (r, s') ->
  exists a b,
    (r = Returned tt /\
     trace s' = trace s ++ LiveIO.orderSteps symbol side amountMarket price takeProfit
                             stopLoss a b /\
     reported sv symbol side amountMarket (env s) a b) \/
    (exists k e0,
       (1 <= k <= 5)%nat /\
       trace s' = trace s ++ firstn k (LiveIO.orderSteps symbol side amountMarket price
                                             takeProfit stopLoss a b)
                   ++ [SendTelegram (OrderError symbol e0)] /\
       (r = Returned tt \/ exists e, r = Threw e) /\
       ((3 <= k)%nat -> reported sv symbol side amountMarket (env s) a b)).
Proof.
  unfold LiveIO.placeOrder, LiveIO.getBalance, LiveIO.sendTelegramMessage.
  unfold tryCatch, bindM, await, ret.
  intros H. repeat oracle H.
  all: injection H as <- <-; cbn [trace]; repeat rewrite <- app_assoc; cbn [app].
  all: do 2 eexists.
  all: first
    [ left; split; [reflexivity|]; split; [reflexivity|];
      do 3 eexists; split; [eassumption|]; split; [eassumption | reflexivity]
    | right; exists 1%nat; eexists; split; [lia|]; split; [reflexivity|];
      split; [eauto | intros; lia]
    | right; exists 2%nat; eexists; split; [lia|]; split; [reflexivity|];
      split; [eauto | intros; lia]
    | right; exists 3%nat; eexists; split; [lia|]; split; [reflexivity|];
      split; [eauto | intros _; do 3 eexists; split; [eassumption|];
                      split; [eassumption | reflexivity]]
    | right; exists 4%nat; eexists; split; [lia|]; split; [reflexivity|];
      split; [eauto | intros _; do 3 eexists; split; [eassumption|];
                      split; [eassumption | reflexivity]]
    | right; exists 5%nat; eexists; split; [lia|]; split; [reflexivity|];
      split; [eauto | intros _; do 3 eexists; split; [eassumption|];
                      split; [eassumption | reflexivity]] ].
  Unshelve. all: exact None.
Qed.

End PlaceOrder.


(** X12. [placeOrder] catches every rejection it meets: it throws only when
    the notification of the error is itself rejected by Telegram, with the
    error of that rejection, and then that notification is the last request
    it sent; so with a Telegram that rejects nothing it always returns. *)
Theorem X12_placeOrder_throws (W : Type) (sv : Services W) (symbol : string)
    (side : Side) (amountMarket : number) (price : number) (takeProfit stopLoss : number)
    (s s' : Run W) (r : outcome unit) :
  LiveIO.placeOrder W sv symbol side amountMarket price takeProfit stopLoss s = (r, s') ->
  (r = Returned tt \/
   exists e e0 w pre,
     r = Threw e /\ post sv (OrderError symbol e0) w = (Rejected e, env s') /\
     trace s' = trace s ++ pre ++ [SendTelegram (OrderError symbol e0)]) /\
  ((forall m w, fst (post sv m w) = Fulfilled tt) -> r = Returned tt).
Proof.
  unfold LiveIO.placeOrder, LiveIO.getBalance, LiveIO.sendTelegramMessage.
  unfold tryCatch, bindM, await, ret.
  intros H. repeat oracle H.
  all: injection H as <- <-; cbn [trace env]; repeat rewrite <- app_assoc; cbn [app].
  all: split;
    [ first [ left; reflexivity
            | right; do 4 eexists; split; [reflexivity|]; split; [eassumption|];
              first [ instantiate (1 := [_]); reflexivity
                    | instantiate (1 := [_; _]); reflexivity
                    | instantiate (1 := [_; _; _]); reflexivity
                    | instantiate (1 := [_; _; _; _]); reflexivity
                    | instantiate (1 := [_; _; _; _; _]); reflexivity ] ]
    | intros Hpost; try reflexivity;
      repeat match goal with
             | E : post _ ?m ?w = (Rejected _, _) |- _ =>
                 pose proof (Hpost m w) as C; rewrite E in C; discriminate C
             end ].
Qed.


Lemma X12_placeOrder_throws_witness :
  LiveIO.placeOrder unit (storeServices (fun _ => falling) ["BTC/USDT"%string] 1704067800000)
    "BTC/USDT" Buy 1 98 99 97 startRun
  = (Returned tt,
     {| env := tt;
        trace := LiveIO.orderSteps "BTC/USDT" Buy 1 98 99 97
                   (Some 1) (Some 5) |}).
Proof.
  pose proof (proj2 (X12_placeOrder_throws unit
                       (storeServices (fun _ => falling) ["BTC/USDT"%string] 1704067800000)
                       "BTC/USDT" Buy 1 98 99 97 startRun _ _ eq_refl)
                (fun m w => eq_refl)) as H.
  reflexivity.
Defined.

Lemma tickersOf_app (l1 l2 : list Event) : tickersOf (l1 ++ l2) = tickersOf l1 ++ tickersOf l2.
Proof. unfold tickersOf. apply flat_map_app. Qed.

(** The spike test at the last index is the test on the last two candles. *)
Lemma spikeAt_last (threshold : number) (data : list OHLCV) (previous current : OHLCV) :
  (2 <= List.length data)%nat ->
  nth_error data (List.length data - 2) = Some previous ->
  nth_error data (List.length data - 1) = Some current ->
  Backtest.spikeAt threshold data (List.length data - 1)
    = spike threshold (close previous) (close current).
Proof.
  intros Hl Hp Hc. apply spikeAt_nth; [|exact Hc].
  rewrite before_nth by lia.
  replace (List.length data - 1 - 1)%nat with (List.length data - 2)%nat by lia.
  exact Hp.
Qed.

(** Two answers to the same request in the same world are one. *)
Ltac same_answer :=
  repeat match goal with
         | E : ?x = (_, _), H : ?x = (_, _) |- _ =>
             rewrite E in H; first [discriminate H | injection H as ? ?; subst]
         end.

(** The end of a branch of the monitor that returns or throws without an
    order, up to the reason why there is no Long signal. *)
Ltac quiet_end H :=
  injection H as <- <-; split; [discriminate|]; eexists; cbn [trace];
  rewrite <- ?app_assoc; cbn [app];
  split; [reflexivity|]; split; [reflexivity|];
  split; [cbn; lia|]; split; [cbn; lia|]; split; [repeat constructor|];
  split; [first [left; reflexivity | right; do 2 eexists; split; [reflexivity | eassumption]]|];
  split; [|intros _; repeat constructor];
  split;
  [ intros (ev & Hin & Ho); cbn in Hin;
    repeat (destruct Hin as [<-|Hin]; [discriminate Ho|]); contradiction
  | unfold longSignal;
    intros (q' & w1' & t' & w2' & data' & w3' & ch' & H1 & H2 & H3 & H4 & H5 & H6);
    same_answer ].

Section Monitor.

Variable W : Type.
Variable sv : Services W.
Variable threshold : number.

(** What one symbol costs: its ticker, and then no other ticker; one market
    order and one limit order at most, both for the symbol, which buy at
    the market and sell at a limit; nothing after the ticker unless it
    shows volume enough; and an order exactly on a Long signal. *)
Lemma detect_trace (symbol : string) (s s' : Run W) (r : outcome unit) :
  LiveIO.detectPriceSpikes W sv threshold symbol s = (r, s') ->
  r <> OutOfFuel /\
  exists evs,
    trace s' = trace s ++ FetchTicker symbol :: evs /\ tickersOf evs = [] /\
    (List.length (filter isMarketOrder evs) <= 1)%nat /\
    (List.length (filter isLimitOrder evs) <= 1)%nat /\
    Forall (orderFor symbol) evs /\
    (evs = [] \/
     exists quoteVolume w,
       fetchTicker sv symbol (env s) = (Fulfilled quoteVolume, w) /\
       (orZero quoteVolume <? Live.volumeThreshold) = false) /\
    ((exists ev, In ev evs /\ isOrder ev = true) <->
     longSignal sv threshold symbol (env s)) /\
    (endsWith symbol usdt = true -> Forall buysThenSells evs).
Proof.
  unfold LiveIO.detectPriceSpikes, LiveIO.get24hVolume, LiveIO.fetchLatestOHLCV.
  unfold bindM at 1 2. unfold await, ret, throw. intros H.
  destruct (fetchTicker sv symbol (env s)) as [[q|e] w1] eqn:Eticker;
    cbn [env trace fst snd] in H.
  2:{ quiet_end H. }
  destruct (orZero q <? Live.volumeThreshold) eqn:Egate.
  { quiet_end H. congruence. }
  unfold bindM in H. cbn [env trace] in H.
  destruct (now sv w1) as [t w2] eqn:Enow.
  destruct (fetchOHLCV sv symbol Live.timeframe (t - 2 * 5 * 60 * 1000) 2 w2)
    as [[data|e] w3] eqn:Ecandles; cbn [env trace fst snd] in H.
  2:{ quiet_end H. }
  destruct (List.length data <? 2)%nat eqn:El.
  { quiet_end H. apply Nat.ltb_lt in El. lia. }
  apply Nat.ltb_ge in El.
  destruct (nth_error data (List.length data - 2)) as [previous|] eqn:Ep.
  2:{ apply nth_error_None in Ep. lia. }
  destruct (nth_error data (List.length data - 1)) as [current|] eqn:Ec.
  2:{ apply nth_error_None in Ec. lia. }
  pose proof (spikeAt_last threshold data previous current El Ep Ec) as Hlast.
  destruct (spike threshold (close previous) (close current)) as [[change [|]]|] eqn:Es;
    cbn [negb] in H.
  { quiet_end H. congruence. }
  2:{ quiet_end H. congruence. }
  assert (Hlong : longSignal sv threshold symbol (env s)).
  { exists q, w1, t, w2, data, w3, change. repeat split; assumption. }
  destruct (placeOrder_traces _ _ _ _ _ _ _ _ _ _ _ H) as (a & b & Hcases).
  cbn [trace] in Hcases.
  destruct Hcases as [(-> & Ht & _) | (k & e0 & Hk & Ht & Hr & _)].
  - split; [discriminate|]. eexists. rewrite Ht, <- !app_assoc. cbn [app].
    split; [reflexivity|]. split; [reflexivity|].
    split; [cbn; lia|]. split; [cbn; lia|]. split; [repeat constructor|].
    split; [right; do 2 eexists; split; [reflexivity | eassumption]|].
    split.
    + split; [intros _; exact Hlong|].
      intros _. eexists. split; [right; left; reflexivity | reflexivity].
    + intros Hu. repeat constructor; cbn; auto.
  - split; [destruct Hr as [->|[e ->]]; discriminate|].
    assert (Hc : k = 1%nat \/ k = 2%nat \/ k = 3%nat \/ k = 4%nat \/ k = 5%nat) by lia.
    destruct Hc as [->|[->|[->|[->| ->]]]]; cbn [firstn LiveIO.orderSteps] in Ht;
      eexists; rewrite Ht, <- !app_assoc; cbn [app];
      (split; [reflexivity|]); (split; [reflexivity|]);
      (split; [cbn; lia|]); (split; [cbn; lia|]); (split; [repeat constructor|]);
      (split; [right; do 2 eexists; split; [reflexivity | eassumption]|]);
      (split;
       [ split; [intros _; exact Hlong|];
         intros _; eexists; split; [right; left; reflexivity | reflexivity]
       | intros Hu; repeat constructor; cbn; auto ]).
Qed.

(** The requests of a list of symbols, symbol by symbol. *)
Lemma symbols_trace (symbols : list string) (s s' : Run W) (r : outcome unit) :
  forOf symbols
    (fun symbol => tryCatch (LiveIO.detectPriceSpikes W sv threshold symbol)
                     (fun error => ret tt)) s = (r, s') ->
  Forall (fun symbol => endsWith symbol usdt = true) symbols ->
  r = Returned tt /\
  exists segments,
    trace s' = trace s ++ List.concat segments /\ Forall2 ofSymbol symbols segments /\
    Forall buysThenSells (List.concat segments).
Proof.
  revert s. induction symbols as [|symbol rest IH]; intros s H Hu; cbn [forOf] in H.
  - injection H as <- <-. split; [reflexivity|]. exists []. cbn. rewrite app_nil_r.
    split; [reflexivity|]. split; constructor.
  - inversion Hu as [|? ? Hsym Hrest]; subst.
    unfold bindM, tryCatch in H.
    destruct (LiveIO.detectPriceSpikes W sv threshold symbol s) as [r1 s1] eqn:E1.
    destruct (detect_trace _ _ _ _ E1)
      as (Hr1 & evs1 & Ht1 & Hk1 & Hm1 & Hl1 & Hf1 & _ & _ & Hb1).
    assert (H' : forOf rest
                   (fun symbol => tryCatch (LiveIO.detectPriceSpikes W sv threshold symbol)
                                    (fun error => ret tt)) s1 = (r, s')).
    { destruct r1 as [[]|e|]; [exact H | exact H | contradiction]. }
    destruct (IH s1 H' Hrest) as (-> & segments & Ht2 & Hs2 & Hb2).
    split; [reflexivity|].
    exists ((FetchTicker symbol :: evs1) :: segments).
    split; [cbn [List.concat]; rewrite Ht2, Ht1, <- app_assoc; reflexivity|].
    split.
    + constructor; [|exact Hs2]. exists evs1. repeat split; assumption.
    + cbn [List.concat]. apply Forall_app. split; [|exact Hb2].
      constructor; [exact I | exact (Hb1 Hsym)].
Qed.

Lemma tickersOf_segments (symbols : list string) (segments : list (list Event)) :
  Forall2 ofSymbol symbols segments -> tickersOf (List.concat segments) = symbols.
Proof.
  induction 1 as [|symbol seg symbols segments (rest & -> & Hk & _) _ IH]; [reflexivity|].
  cbn [List.concat]. rewrite tickersOf_app, IH.
  change (FetchTicker symbol :: rest) with ([FetchTicker symbol] ++ rest).
  rewrite tickersOf_app, Hk. reflexivity.
Qed.

(** A round of the monitor throws exactly when loading the markets is
    rejected. *)
Lemma monitorTickers_cases (s s' : Run W) (r : outcome unit) :
  LiveIO.monitorTickers W sv threshold s = (r, s') ->
  (exists e, loadMarkets sv (env s) = (Rejected e, env s') /\ r = Threw e /\
             trace s' = trace s ++ [LoadMarkets]) \/
  (exists markets w segments,
     loadMarkets sv (env s) = (Fulfilled markets, w) /\ r = Returned tt /\
     trace s' = trace s ++ LoadMarkets :: List.concat segments /\
     Forall2 ofSymbol (filter (fun symbol => endsWith symbol usdt) markets) segments /\
     Forall buysThenSells (List.concat segments)).
Proof.
  unfold LiveIO.monitorTickers. unfold bindM at 1. unfold await.
  intros H. destruct (loadMarkets sv (env s)) as [[markets|e] w] eqn:E.
  - right. apply symbols_trace in H.
    + destruct H as (-> & segments & Ht & Hs & Hb). cbn [trace] in Ht.
      exists markets, w, segments. split; [reflexivity|]. split; [reflexivity|].
      split; [rewrite Ht, <- app_assoc; reflexivity|]. split; assumption.
    + apply Forall_forall. intros x Hx. apply filter_In in Hx. exact (proj2 Hx).
  - left. injection H as <- <-. exists e. repeat split; reflexivity.
Qed.

(** The loop over the rounds ends only by a round that throws. *)
Lemma runMonitoring_cases (fuel : nat) (s s' : Run W) (r : outcome unit) :
  LiveIO.runMonitoring W sv threshold fuel s = (r, s') ->
  exists evs,
    trace s' = trace s ++ evs /\ Forall buysThenSells evs /\
    (r = OutOfFuel \/
     exists e w pre, r = Threw e /\ loadMarkets sv w = (Rejected e, env s') /\
                     evs = pre ++ [LoadMarkets]).
Proof.
  revert s. induction fuel as [|rounds IH]; intros s H; cbn [LiveIO.runMonitoring] in H.
  - injection H as <- <-. exists []. rewrite app_nil_r.
    split; [reflexivity|]. split; [constructor | left; reflexivity].
  - unfold bindM in H.
    destruct (LiveIO.monitorTickers W sv threshold s) as [r1 s1] eqn:E1.
    destruct (monitorTickers_cases _ _ _ E1)
      as [(e & Hl & -> & Ht) | (markets & w & segments & Hl & -> & Ht & _ & Hb)].
    + injection H as <- <-. exists [LoadMarkets].
      split; [exact Ht|]. split; [repeat constructor|].
      right. exists e, (env s), []. repeat split; assumption.
    + destruct (IH s1 H) as (evs2 & Ht2 & Hb2 & Hr).
      exists ((LoadMarkets :: List.concat segments) ++ evs2).
      split; [rewrite Ht2, Ht, <- app_assoc; reflexivity|].
      split; [apply Forall_app; split; [constructor; [exact I | exact Hb] | exact Hb2]|].
      destruct Hr as [->|(e & w' & pre & -> & Hl' & ->)]; [left; reflexivity|].
      right. exists e, w', ((LoadMarkets :: List.concat segments) ++ pre).
      split; [reflexivity|]. split; [exact Hl'|]. rewrite <- app_assoc. reflexivity.
Qed.

End Monitor.

(** X9. The monitor asks for an order for a symbol exactly on a Long
    signal: an order is among the requests of detectPriceSpikes exactly
    when the ticker was fulfilled with a quote volume that is not below the
    volume threshold, the candles were fulfilled, there are at least two of
    them, and the spike test of the backtest at the last index of these
    candles gives a Long signal.  A Short signal, a low volume, fewer than
    two candles or a rejected request lead to no order. *)
Theorem X9_monitor_orders_on_long_only (W : Type) (sv : Services W) (threshold : number)
    (symbol : string) (s s' : Run W) (r : outcome unit) :
  LiveIO.detectPriceSpikes W sv threshold symbol s = (r, s') ->
  exists evs,
    trace s' = trace s ++ evs /\
    ((exists ev, In ev evs /\ isOrder ev = true) <->
     exists quoteVolume w1 t w2 data w3 change,
       fetchTicker sv symbol (env s) = (Fulfilled quoteVolume, w1) /\
       (orZero quoteVolume <? Live.volumeThreshold) = false /\
       now sv w1 = (t, w2) /\
       fetchOHLCV sv symbol Live.timeframe (t - 2 * 5 * 60 * 1000) 2 w2
         = (Fulfilled data, w3) /\
       (2 <= List.length data)%nat /\
       Backtest.spikeAt threshold data (List.length data - 1) = Some (change, false)).
Proof.
  intros H.
  destruct (detect_trace _ _ _ _ _ _ _ H) as (_ & evs & Ht & _ & _ & _ & _ & _ & Hiff & _).
  exists (FetchTicker symbol :: evs). split; [exact Ht|].
  fold (longSignal sv threshold symbol (env s)). rewrite <- Hiff.
  split; intros (ev & Hin & Ho); exists ev; (split; [|exact Ho]).
  - destruct Hin as [<-|Hin]; [discriminate Ho | exact Hin].
  - right. exact Hin.
Qed.

(** In a world that answers with a fall of 2% the monitor sends an order. *)
Lemma X9_monitor_orders_on_long_only_witness :
  exists s' evs ev,
    snd (LiveIO.detectPriceSpikes unit
           (storeServices (fun _ => falling) ["BTC/USDT"%string] 1704067800000)
           Live.threshold "BTC/USDT" startRun) = s' /\
    trace s' = evs /\ In ev evs /\ isOrder ev = true.
Proof.
  destruct (LiveIO.detectPriceSpikes unit
              (storeServices (fun _ => falling) ["BTC/USDT"%string] 1704067800000)
              Live.threshold "BTC/USDT" startRun) as [r s'] eqn:E.
  destruct (X9_monitor_orders_on_long_only _ _ _ _ _ _ _ E) as (evs & Ht & Hiff).
  destruct (proj2 Hiff) as (ev & Hin & Ho).
  - exists (Some 20000000), tt, 1704067800000%Z, tt, falling, tt, (priceChange 100 98).
    repeat split; reflexivity.
  - exists s', evs, ev. split; [reflexivity|]. split; [exact Ht|]. split; assumption.
Defined.

(** X13. A round of the monitor asks for the ticker of every market whose
    name ends in /USDT, once each and in the order of the markets, whatever
    was rejected or thrown on the way; it throws only when loading the
    markets is rejected, and then it asks for nothing else. *)
Theorem X13_round_asks_every_ticker (W : Type) (sv : Services W) (threshold : number)
    (s s' : Run W) (r : outcome unit) :
  LiveIO.monitorTickers W sv threshold s = (r, s') ->
  match fst (loadMarkets sv (env s)) with
  | Fulfilled markets =>
      r = Returned tt /\
      exists evs, trace s' = trace s ++ LoadMarkets :: evs /\
                  tickersOf evs = filter (fun symbol => endsWith symbol usdt) markets
  | Rejected e => r = Threw e /\ trace s' = trace s ++ [LoadMarkets]
  end.
Proof.
  intros H.
  destruct (monitorTickers_cases _ _ _ _ _ _ H)
    as [(e & Hl & -> & Ht) | (markets & w & segments & Hl & -> & Ht & Hs & _)];
    rewrite Hl; cbn [fst].
  - split; [reflexivity | exact Ht].
  - split; [reflexivity|]. exists (List.concat segments). split; [exact Ht|].
    apply tickersOf_segments. exact Hs.
Qed.

Lemma X13_round_asks_every_ticker_witness :
  exists s',
    LiveIO.monitorTickers unit
      (storeServices (fun _ => falling) ["BTC/USDT"; "ETH/BTC"; "ETH/USDT"]%string 1704067800000)
      Live.threshold startRun = (Returned tt, s') /\
    exists evs, trace s' = LoadMarkets :: evs /\
                tickersOf evs = ["BTC/USDT"; "ETH/USDT"]%string.
Proof.
  destruct (LiveIO.monitorTickers unit
              (storeServices (fun _ => falling) ["BTC/USDT"; "ETH/BTC"; "ETH/USDT"]%string 1704067800000)
              Live.threshold startRun) as [r s'] eqn:E.
  destruct (X13_round_asks_every_ticker _ _ _ _ _ _ E) as (-> & evs & Ht & Hk).
  exists s'. split; [reflexivity|]. exists evs. split; [exact Ht | exact Hk].
Defined.

(** X14. The monitor never returns: its loop ends only when loading the
    markets is rejected, with that rejection thrown and as the last request
    made; otherwise it is still running after any number of rounds. *)
Theorem X14_monitor_never_returns (W : Type) (sv : Services W) (threshold : number)
    (fuel : nat) (s s' : Run W) (r : outcome unit) :
  LiveIO.runMonitoring W sv threshold fuel s = (r, s') ->
  r = OutOfFuel \/
  exists e w pre, r = Threw e /\ loadMarkets sv w = (Rejected e, env s') /\
                  trace s' = trace s ++ pre ++ [LoadMarkets].
Proof.
  intros H. destruct (runMonitoring_cases _ _ _ _ _ _ _ H) as (evs & Ht & _ & Hr).
  destruct Hr as [->|(e & w & pre & -> & Hl & ->)]; [left; reflexivity|].
  right. exists e, w, pre. repeat split; assumption.
Qed.

Lemma X14_monitor_never_returns_witness :
  fst (LiveIO.runMonitoring unit
         (storeServices (fun _ => falling) ["BTC/USDT"; "ETH/BTC"; "ETH/USDT"]%string 1704067800000)
         Live.threshold 3 startRun) = OutOfFuel.
Proof.
  destruct (LiveIO.runMonitoring unit
              (storeServices (fun _ => falling) ["BTC/USDT"; "ETH/BTC"; "ETH/USDT"]%string 1704067800000)
              Live.threshold 3 startRun) as [r s'] eqn:E.
  destruct (X14_monitor_never_returns _ _ _ _ _ _ _ E)
    as [->|(e & w & pre & _ & Hl & _)]; [reflexivity | discriminate Hl].
Defined.

(** X15. Whatever the exchange and Telegram answer, every market order the
    monitor places is a buy and every limit order a sell, and both are for
    a market whose name ends in /USDT. *)
Theorem X15_monitor_buys_then_sells (W : Type) (sv : Services W) (threshold : number)
    (fuel : nat) (s s' : Run W) (r : outcome unit) :
  LiveIO.runMonitoring W sv threshold fuel s = (r, s') ->
  exists evs, trace s' = trace s ++ evs /\ Forall buysThenSells evs.
Proof.
  intros H. destruct (runMonitoring_cases _ _ _ _ _ _ _ H) as (evs & Ht & Hb & _).
  exists evs. split; assumption.
Qed.

Lemma X15_monitor_buys_then_sells_witness :
  exists s' evs,
    snd (LiveIO.runMonitoring unit
           (storeServices (fun _ => falling) ["BTC/USDT"; "ETH/BTC"; "ETH/USDT"]%string 1704067800000)
           Live.threshold 3 startRun) = s' /\
    trace s' = evs /\ Forall buysThenSells evs.
Proof.
  destruct (LiveIO.runMonitoring unit
              (storeServices (fun _ => falling) ["BTC/USDT"; "ETH/BTC"; "ETH/USDT"]%string 1704067800000)
              Live.threshold 3 startRun) as [r s'] eqn:E.
  destruct (X15_monitor_buys_then_sells _ _ _ _ _ _ _ E) as (evs & Ht & Hb).
  exists s', evs. split; [reflexivity|]. split; [exact Ht | exact Hb].
Defined.

(** X19. A round of the monitor goes through the markets symbol by symbol:
    for each symbol it asks the ticker first, and then it places one market
    order and one limit order at most, both for that symbol; so a round
    trades no market of its list twice, and a round that throws has placed
    no order at all. *)
Theorem X19_round_orders_bounded (W : Type) (sv : Services W) (threshold : number)
    (s s' : Run W) (r : outcome unit) :
  LiveIO.monitorTickers W sv threshold s = (r, s') ->
  exists symbols segments,
    trace s' = trace s ++ LoadMarkets :: List.concat segments /\
    Forall2 ofSymbol symbols segments /\
    (forall markets w,
       loadMarkets sv (env s) = (Fulfilled markets, w) ->
       symbols = filter (fun symbol => endsWith symbol usdt) markets) /\
    (r <> Returned tt -> segments = []).
Proof.
  intros H.
  destruct (monitorTickers_cases _ _ _ _ _ _ H)
    as [(e & Hl & -> & Ht) | (markets & w & segments & Hl & -> & Ht & Hs & _)].
  - exists [], []. split; [exact Ht|]. split; [constructor|].
    split; [intros markets w Hm; rewrite Hm in Hl; discriminate Hl | reflexivity].
  - exists (filter (fun symbol => endsWith symbol usdt) markets), segments.
    split; [exact Ht|]. split; [exact Hs|].
    split; [intros markets' w' Hm; rewrite Hm in Hl; injection Hl as <- _; reflexivity|].
    intros Hr. contradiction.
Qed.

Lemma X19_round_orders_bounded_witness :
  exists s' segments,
    snd (LiveIO.monitorTickers unit
           (storeServices (fun _ => falling) ["BTC/USDT"; "ETH/BTC"; "ETH/USDT"]%string
              1704067800000)
           Live.threshold startRun) = s' /\
    trace s' = LoadMarkets :: List.concat segments /\
    Forall2 ofSymbol ["BTC/USDT"; "ETH/USDT"]%string segments.
Proof.
  destruct (LiveIO.monitorTickers unit
              (storeServices (fun _ => falling) ["BTC/USDT"; "ETH/BTC"; "ETH/USDT"]%string
                 1704067800000)
              Live.threshold startRun) as [r s'] eqn:E.
  destruct (X19_round_orders_bounded _ _ _ _ _ _ E) as (symbols & segments & Ht & Hs & Hm & _).
  rewrite (Hm _ tt eq_refl) in Hs.
  exists s', segments. split; [reflexivity|]. split; [exact Ht | exact Hs].
Defined.

(** X20. The volume gate of the monitor: a symbol is asked for candles, or
    traded, only after its ticker was fulfilled with a quote volume that is
    not below ten million, a missing volume counting as zero; otherwise the
    ticker is the only request made for the symbol. *)
Theorem X20_volume_gate (W : Type) (sv : Services W) (threshold : number) (symbol : string)
    (s s' : Run W) (r : outcome unit) :
  LiveIO.detectPriceSpikes W sv threshold symbol s = (r, s') ->
  (trace s' = trace s ++ [FetchTicker symbol] \/
   exists quoteVolume w,
     fetchTicker sv symbol (env s) = (Fulfilled quoteVolume, w) /\
     quoteVolume <> None /\
     (orZero quoteVolume <? 10000000) = false).
Proof.
  intros H.
  destruct (detect_trace _ _ _ _ _ _ _ H) as (_ & evs & Ht & _ & _ & _ & _ & Hgate & _).
  destruct Hgate as [->|(q & w & Hq & Hv)]; [left; exact Ht|].
  right. exists q, w. split; [exact Hq|]. split; [|exact Hv].
  intros ->. vm_compute in Hv. discriminate Hv.
Qed.

Lemma X20_volume_gate_witness :
  exists s',
    snd (LiveIO.detectPriceSpikes unit
           (storeServices (fun _ => falling) ["BTC/USDT"%string] 1704067800000)
           Live.threshold "BTC/USDT" startRun) = s' /\
    (trace s' = [FetchTicker "BTC/USDT"] \/
     (orZero (Some 20000000) <? 10000000) = false).
Proof.
  destruct (LiveIO.detectPriceSpikes unit
              (storeServices (fun _ => falling) ["BTC/USDT"%string] 1704067800000)
              Live.threshold "BTC/USDT" startRun) as [r s'] eqn:E.
  exists s'. split; [reflexivity|].
  destruct (X20_volume_gate _ _ _ _ _ _ _ E) as [Ht|(q & w & Hq & _ & Hv)].
  - left. exact Ht.
  - right. cbn in Hq. injection Hq as <- _. exact Hv.
Defined.

(** ** Properties of the requests of the backtest *)

Lemma filter_none {A : Type} (p : A -> bool) (l : list A) :
  (forall x, In x l -> p x = false) -> filter p l = [].
Proof.
  induction l as [|a l IH]; intros H; cbn; [reflexivity|].
  rewrite (H a (or_introl eq_refl)). apply IH. intros x Hx. apply H. right. exact Hx.
Qed.

Lemma filter_all {A : Type} (p : A -> bool) (l : list A) :
  (forall x, In x l -> p x = true) -> filter p l = l.
Proof.
  induction l as [|a l IH]; intros H; cbn; [reflexivity|].
  rewrite (H a (or_introl eq_refl)). f_equal. apply IH. intros x Hx. apply H. right. exact Hx.
Qed.

Lemma from_from (t t' : Z) (store : list OHLCV) :
  (t <= t')%Z -> from t' (from t store) = from t' store.
Proof.
  intros Ht. unfold from. induction store as [|c store IH]; cbn; [reflexivity|].
  destruct (t <=? timestamp c)%Z eqn:E1; cbn; rewrite IH; [reflexivity|].
  destruct (t' <=? timestamp c)%Z eqn:E2; [|reflexivity]. lia.
Qed.

Lemma from_In (t : Z) (store : list OHLCV) (c : OHLCV) :
  In c (from t store) -> (t <= timestamp c)%Z.
Proof. unfold from. intros H. apply filter_In in H. lia. Qed.

Lemma from_sorted (t : Z) (store : list OHLCV) :
  increasing store -> increasing (from t store).
Proof.
  unfold from. induction store as [|c store IH]; cbn; [trivial|]. intros [Hc Hs].
  destruct (t <=? timestamp c)%Z; [|exact (IH Hs)].
  cbn. split; [|exact (IH Hs)]. apply Forall_forall. intros x Hx.
  apply filter_In in Hx. rewrite Forall_forall in Hc. apply Hc. apply Hx.
Qed.

Lemma sorted_app (l1 l2 : list OHLCV) :
  increasing (l1 ++ l2) ->
  increasing l2 /\
  forall x y, In x l1 -> In y l2 -> (timestamp x < timestamp y)%Z.
Proof.
  induction l1 as [|a l1 IH]; cbn; intros H.
  - split; [exact H | intros x y []].
  - destruct H as [Hc Hs]. destruct (IH Hs) as [H2 Hxy].
    split; [exact H2|]. intros x y [<-|Hx] Hy.
    + rewrite Forall_forall in Hc. apply Hc. apply in_or_app. right. exact Hy.
    + apply Hxy; assumption.
Qed.

Lemma sorted_last (l : list OHLCV) (c : OHLCV) :
  increasing l -> nth_error l (List.length l - 1) = Some c ->
  forall x, In x l -> (timestamp x <= timestamp c)%Z.
Proof.
  intros Hs Hn x Hx.
  destruct (nth_error_split l _ Hn) as (l1 & l2 & -> & Hlen).
  rewrite length_app in Hlen. cbn in Hlen.
  assert (l2 = []) by (destruct l2; [reflexivity | cbn in Hlen; lia]). subst l2.
  apply sorted_app in Hs. destruct Hs as [_ Hxy].
  apply in_app_or in Hx. destruct Hx as [Hx|[<-|[]]]; [|lia].
  specialize (Hxy x c Hx (or_introl eq_refl)). lia.
Qed.

(** After a full page, the candles from one past its last timestamp on are
    the candles that follow the page. *)
Lemma next_page (n : nat) (t : Z) (store : list OHLCV) (c : OHLCV) :
  increasing store ->
  nth_error (firstn n (from t store)) (List.length (firstn n (from t store)) - 1) = Some c ->
  from (timestamp c + 1) store = skipn n (from t store).
Proof.
  intros Hs Hn.
  assert (Hr := from_sorted t store Hs).
  assert (Hin : In c (from t store)).
  { apply nth_error_In in Hn. rewrite <- (firstn_skipn n (from t store)).
    apply in_or_app. left. exact Hn. }
  rewrite <- (from_from t) by (apply from_In in Hin; lia).
  pose proof (firstn_skipn n (from t store)) as Heq.
  remember (firstn n (from t store)) as page eqn:Epage.
  remember (skipn n (from t store)) as rest eqn:Erest.
  rewrite <- Heq in Hr |- *. clear Heq Epage Erest Hin.
  assert (Hp : increasing page).
  { clear Hn. induction page as [|a page IH]; [exact I|].
    cbn in Hr. destruct Hr as [Hc Hs']. cbn. split; [|apply IH; exact Hs'].
    rewrite Forall_app in Hc. apply Hc. }
  pose proof (sorted_last page c Hp Hn) as Hmax.
  destruct (sorted_app _ _ Hr) as [_ Hxy].
  unfold from. rewrite filter_app, filter_none, filter_all; [reflexivity| |].
  - intros y Hy. apply nth_error_In in Hn. specialize (Hxy c y Hn Hy). lia.
  - intros x Hx. specialize (Hmax x Hx). lia.
Qed.

Section Pagination.

Variable W : Type.
Variable sv : Services W.
Variables (symbol timeframe : string).
Variable store : list OHLCV.

Hypothesis sorted : increasing store.
Hypothesis serves : forall t n w,
  fst (fetchOHLCV sv symbol timeframe t n w) = Fulfilled (firstn n (from t store)).

Lemma fetchPages_store (fuel : nat) (allData : list OHLCV) (fetchSince : Z) (s : Run W) :
  (List.length (from fetchSince store) / BacktestIO.limit < fuel)%nat ->
  exists s' evs,
    BacktestIO.fetchPages W sv symbol timeframe fuel allData fetchSince s
      = (Returned (allData ++ from fetchSince store), s') /\
    trace s' = trace s ++ evs /\
    List.length evs = (List.length (from fetchSince store) / BacktestIO.limit + 1)%nat /\
    Forall (fun ev => exists t, ev = FetchOHLCV symbol timeframe t BacktestIO.limit) evs.
Proof.
  revert allData fetchSince s.
  induction fuel as [|pages IH]; intros allData fetchSince s Hfuel; [lia|].
  cbn [BacktestIO.fetchPages]. unfold bindM, await.
  pose proof (serves fetchSince BacktestIO.limit (env s)) as Hserve.
  destruct (fetchOHLCV sv symbol timeframe fetchSince BacktestIO.limit (env s))
    as [answer w]. cbn [fst] in Hserve. subst answer.
  set (rest := from fetchSince store) in *.
  set (s1 := {| env := w; trace := trace s ++ _ |}).
  assert (Hlen : List.length (firstn BacktestIO.limit rest)
                 = Nat.min BacktestIO.limit (List.length rest)) by apply length_firstn.
  assert (Hone : Forall (fun ev => exists t, ev = FetchOHLCV symbol timeframe t BacktestIO.limit)
                   [FetchOHLCV symbol timeframe fetchSince BacktestIO.limit]).
  { repeat constructor. eexists; reflexivity. }
  destruct (List.length (firstn BacktestIO.limit rest)) as [|k] eqn:Ek.
  - assert (Hz : List.length rest = 0%nat) by (unfold BacktestIO.limit in Hlen; lia).
    destruct rest; [|discriminate Hz]. exists s1, [FetchOHLCV symbol timeframe fetchSince BacktestIO.limit]. rewrite app_nil_r.
    split; [reflexivity|]. split; [reflexivity|]. split; [reflexivity | exact Hone].
  - rewrite <- Ek.
    destruct (nth_error (firstn BacktestIO.limit rest)
                (List.length (firstn BacktestIO.limit rest) - 1)) as [lastCandle|] eqn:En.
    2:{ apply nth_error_None in En. lia. }
    destruct (List.length (firstn BacktestIO.limit rest) <? BacktestIO.limit)%nat eqn:Efull.
    + apply Nat.ltb_lt in Efull.
      assert (Hshort : (List.length rest < BacktestIO.limit)%nat) by lia.
      rewrite firstn_all2 by lia. exists s1, [FetchOHLCV symbol timeframe fetchSince BacktestIO.limit].
      split; [reflexivity|]. split; [reflexivity|].
      split; [rewrite Nat.div_small by exact Hshort; reflexivity | exact Hone].
    + apply Nat.ltb_ge in Efull.
      assert (Hlong : (BacktestIO.limit <= List.length rest)%nat) by lia.
      pose proof (next_page _ _ _ _ sorted En) as Hnext. fold rest in Hnext.
      assert (Hdiv : (List.length rest / BacktestIO.limit
                      = 1 + List.length (skipn BacktestIO.limit rest) / BacktestIO.limit)%nat).
      { rewrite length_skipn.
        replace (List.length rest)
          with (1 * BacktestIO.limit + (List.length rest - BacktestIO.limit))%nat at 1 by lia.
        rewrite Nat.div_add_l by (unfold BacktestIO.limit; lia). reflexivity. }
      destruct (IH (allData ++ firstn BacktestIO.limit rest) (timestamp lastCandle + 1)%Z s1)
        as (s' & evs & Hrun & Htrace & Hcount & Hevs).
      { rewrite Hnext. lia. }
      exists s', (FetchOHLCV symbol timeframe fetchSince BacktestIO.limit :: evs).
      rewrite Hrun, Hnext, <- app_assoc, firstn_skipn.
      split; [reflexivity|]. split.
      * rewrite Htrace. cbn [s1 trace]. rewrite <- app_assoc. reflexivity.
      * split; [cbn [List.length]; rewrite Hcount, Hnext, Hdiv; lia|].
        constructor; [eexists; reflexivity | exact Hevs].
Qed.

End Pagination.

(** X16. Against an exchange that serves a fixed store of candles with
    strictly increasing timestamps, the first [n] from the time asked on,
    [fetchAllOHLCV] returns every candle of the store from [since] on, once
    each and in order, after one request more than the number of full
    pages of 1000; every request is for the candles of the symbol. *)
Theorem X16_pagination_complete (W : Type) (sv : Services W) (symbol timeframe : string)
    (store : list OHLCV) (since : Z) (fuel : nat) (s : Run W) :
  increasing store ->
  (forall t n w,
     fst (fetchOHLCV sv symbol timeframe t n w) = Fulfilled (firstn n (from t store))) ->
  (List.length (from since store) / 1000 < fuel)%nat ->
  exists s' evs,
    BacktestIO.fetchAllOHLCV W sv symbol timeframe since fuel s
      = (Returned (from since store), s') /\
    trace s' = trace s ++ evs /\
    List.length evs = (List.length (from since store) / 1000 + 1)%nat /\
    Forall (fun ev => exists t, ev = FetchOHLCV symbol timeframe t 1000) evs.
Proof.
  intros Hs Hserve Hfuel. unfold BacktestIO.fetchAllOHLCV.
  exact (fetchPages_store W sv symbol timeframe store Hs Hserve fuel [] since s Hfuel).
Qed.

Lemma ascending_increasing (l : list OHLCV) : ascending l = true -> increasing l.
Proof.
  induction l as [|a [|b l] IH]; intros H; [exact I | cbn; auto |].
  cbn [ascending] in H. apply andb_prop in H. destruct H as [Hab Hrest].
  specialize (IH Hrest). cbn [increasing] in *. split; [|exact IH].
  apply Z.ltb_lt in Hab. constructor; [exact Hab|].
  destruct IH as [Hb _]. revert Hb. apply Forall_impl. intros d Hd. lia.
Qed.

Lemma X16_pagination_complete_witness :
  exists s',
    BacktestIO.fetchAllOHLCV unit (storeServices (fun _ => longStore) [] 0)
      "BTC/USDT" "5m" Backtest.since 2 startRun
      = (Returned (from Backtest.since longStore), s') /\
    List.length (trace s') = 2%nat.
Proof.
  destruct (X16_pagination_complete unit (storeServices (fun _ => longStore) [] 0)
              "BTC/USDT" "5m" longStore Backtest.since 2 startRun)
    as (s' & evs & Hrun & Htrace & Hcount & _).
  - apply ascending_increasing. vm_compute. reflexivity.
  - intros t n w. reflexivity.
  - vm_compute. lia.
  - exists s'. split; [exact Hrun|]. rewrite Htrace. cbn [startRun trace app].
    rewrite Hcount. vm_compute. reflexivity.
Defined.

Section BacktestRequests.

Variable W : Type.
Variable sv : Services W.

Lemma fetchPages_trace (symbol : string) (fuel : nat) (allData : list OHLCV)
    (fetchSince : Z) (s s' : Run W) (r : outcome (list OHLCV)) :
  BacktestIO.fetchPages W sv symbol Backtest.timeframe fuel allData fetchSince s = (r, s') ->
  exists evs, trace s' = trace s ++ evs /\ Forall (candlesOf symbol) evs.
Proof.
  revert allData fetchSince s.
  induction fuel as [|pages IH]; intros allData fetchSince s H; cbn [BacktestIO.fetchPages] in H.
  - injection H as <- <-. exists []. rewrite app_nil_r. split; [reflexivity | constructor].
  - unfold bindM, await, ret, throw in H. oracle H.
    2:{ injection H as <- <-. eexists. split; [reflexivity|].
        repeat constructor. eexists; reflexivity. }
    assert (Hone : forall (r0 : outcome (list OHLCV)),
              (r0, {| env := w; trace := trace s ++ [FetchOHLCV symbol Backtest.timeframe
                                                        fetchSince BacktestIO.limit] |})
              = (r, s') ->
              exists evs, trace s' = trace s ++ evs /\ Forall (candlesOf symbol) evs).
    { intros r0 E. injection E as <- <-. eexists. split; [reflexivity|].
      repeat constructor. eexists; reflexivity. }
    match type of H with context [match List.length ?l with _ => _ end] =>
      destruct (List.length l) as [|k] end; [exact (Hone _ H)|].
    match type of H with context [nth_error ?l ?n] => destruct (nth_error l n) end;
      [|exact (Hone _ H)].
    match type of H with context [(?a <? ?b)%nat] => destruct (a <? b)%nat end;
      [exact (Hone _ H)|].
    destruct (IH _ _ _ H) as (evs & Ht & Hevs). cbn [trace] in Ht.
    eexists. rewrite Ht, <- app_assoc. split; [reflexivity|].
    constructor; [eexists; reflexivity | exact Hevs].
Qed.

Lemma backtest_trace (symbol : string) (fuel : nat) (s s' : Run W)
    (r : outcome Backtest.State) :
  BacktestIO.backtest W sv symbol fuel s = (r, s') ->
  exists evs, trace s' = trace s ++ evs /\ Forall (candlesOf symbol) evs.
Proof.
  unfold BacktestIO.backtest, BacktestIO.fetchAllOHLCV, bindM. intros H.
  destruct (BacktestIO.fetchPages W sv symbol Backtest.timeframe fuel [] Backtest.since s)
    as [r1 s1] eqn:E1.
  apply fetchPages_trace in E1.
  destruct r1 as [data|e|].
  - destruct (Backtest.detectPriceSpikes _ _ data symbol);
      unfold ret, throw in H; injection H as <- <-; exact E1.
  - injection H as <- <-. exact E1.
  - injection H as <- <-. exact E1.
Qed.

Lemma backtestAll_trace (symbols : list string) (fuel : nat) (s s' : Run W)
    (r : outcome (list Backtest.State)) :
  BacktestIO.backtestAll W sv symbols fuel s = (r, s') ->
  Forall (fun symbol => endsWith symbol usdt = true) symbols ->
  exists evs,
    trace s' = trace s ++ evs /\
    Forall (fun ev => exists symbol, endsWith symbol usdt = true /\ candlesOf symbol ev) evs.
Proof.
  revert s s' r. induction symbols as [|symbol rest IH]; intros s s' r H Hu;
    cbn [BacktestIO.backtestAll] in H.
  - injection H as <- <-. exists []. rewrite app_nil_r. split; [reflexivity | constructor].
  - inversion Hu as [|? ? Hsym Hrest]; subst. unfold bindM at 1 in H.
    destruct (BacktestIO.backtest W sv symbol fuel s) as [r1 s1] eqn:E1.
    destruct (backtest_trace _ _ _ _ _ E1) as (evs1 & Ht1 & He1).
    assert (He1' : Forall (fun ev => exists symbol, endsWith symbol usdt = true
                                                    /\ candlesOf symbol ev) evs1).
    { revert He1. apply Forall_impl. intros ev Hev. exists symbol. split; assumption. }
    destruct r1 as [st|e|].
    + unfold bindM in H.
      destruct (BacktestIO.backtestAll W sv rest fuel s1) as [r2 s2] eqn:E2.
      destruct (IH _ _ _ E2 Hrest) as (evs2 & Ht2 & He2).
      assert (s' = s2) by (destruct r2; unfold ret in H; injection H as _ <-; reflexivity).
      subst s'. exists (evs1 ++ evs2).
      split; [rewrite Ht2, Ht1, <- app_assoc; reflexivity|].
      apply Forall_app. split; assumption.
    + injection H as <- <-. exists evs1. split; assumption.
    + injection H as <- <-. exists evs1. split; assumption.
Qed.

End BacktestRequests.

(** X17. The backtest only reads: whatever the exchange answers, a run of
    [runBacktests] loads the markets once and then asks for nothing but
    candles, of five minutes and a thousand at a time, of markets whose name
    ends in /USDT; it places no order and sends no message. *)
Theorem X17_backtest_only_reads (W : Type) (sv : Services W) (fuel : nat)
    (s s' : Run W) (r : outcome (list Backtest.State)) :
  BacktestIO.runBacktests W sv fuel s = (r, s') ->
  exists evs,
    trace s' = trace s ++ LoadMarkets :: evs /\
    Forall (fun ev => exists symbol t, endsWith symbol usdt = true /\
                                       ev = FetchOHLCV symbol "5m" t 1000) evs.
Proof.
  unfold BacktestIO.runBacktests. unfold bindM at 1. unfold await. intros H.
  destruct (loadMarkets sv (env s)) as [[markets|e] w].
  - apply backtestAll_trace in H.
    + destruct H as (evs & Ht & Hevs). cbn [trace] in Ht. exists evs.
      split; [rewrite Ht, <- app_assoc; reflexivity|].
      revert Hevs. apply Forall_impl. intros ev (symbol & Hu & t & ->).
      exists symbol, t. split; [exact Hu | reflexivity].
    + apply Forall_forall. intros x Hx. apply filter_In in Hx. exact (proj2 Hx).
  - injection H as <- <-. exists []. split; [reflexivity | constructor].
Qed.

Lemma X17_backtest_only_reads_witness :
  exists s' evs,
    snd (BacktestIO.runBacktests unit
           (storeServices (fun _ => scenario1) ["BTC/USDT"; "ETH/BTC"; "SOL/USDT"]%string 0)
           1 startRun) = s' /\
    trace s' = LoadMarkets :: evs /\
    Forall (fun ev => exists symbol t, endsWith symbol usdt = true /\
                                       ev = FetchOHLCV symbol "5m" t 1000) evs.
Proof.
  destruct (BacktestIO.runBacktests unit
              (storeServices (fun _ => scenario1) ["BTC/USDT"; "ETH/BTC"; "SOL/USDT"]%string 0)
              1 startRun) as [r s'] eqn:E.
  destruct (X17_backtest_only_reads _ _ _ _ _ _ E) as (evs & Ht & Hevs).
  exists s', evs. split; [reflexivity|]. split; [exact Ht | exact Hevs].
Defined.

(** X18. The loop of [runBacktests] has no [try]: when the backtest of a
    symbol throws, after the symbols before it have run, the loop throws
    the same error in the same state, so that nothing is asked for the
    symbols after it. *)
Theorem X18_first_failure_ends_the_run (W : Type) (sv : Services W) (fuel : nat)
    (done : list string) (symbol : string) (rest : list string)
    (s s1 s2 : Run W) (sts : list Backtest.State) (e : Error) :
  BacktestIO.backtestAll W sv done fuel s = (Returned sts, s1) ->
  BacktestIO.backtest W sv symbol fuel s1 = (Threw e, s2) ->
  BacktestIO.backtestAll W sv (done ++ symbol :: rest) fuel s = (Threw e, s2).
Proof.
  revert s sts. induction done as [|d done IH]; intros s sts Hdone Hfail.
  - cbn [BacktestIO.backtestAll] in Hdone. unfold ret in Hdone.
    injection Hdone as _ <-. cbn [app BacktestIO.backtestAll]. unfold bindM at 1.
    rewrite Hfail. reflexivity.
  - cbn [app BacktestIO.backtestAll] in *. unfold bindM at 1 in Hdone. unfold bindM at 1.
    destruct (BacktestIO.backtest W sv d fuel s) as [[st|e1|] s0]; try discriminate Hdone.
    unfold bindM in Hdone. unfold bindM.
    destruct (BacktestIO.backtestAll W sv done fuel s0) as [[sts0|e1|] s0'] eqn:E0;
      try discriminate Hdone.
    unfold ret in Hdone. injection Hdone as _ <-.
    rewrite (IH s0 sts0 E0 Hfail). reflexivity.
Qed.

Lemma X18_first_failure_ends_the_run_witness :
  exists e s2,
    BacktestIO.backtestAll unit (storeServices mixedStores [] 0)
      ["BTC/USDT"; "ETH/USDT"; "SOL/USDT"]%string 1 startRun = (Threw e, s2) /\
    List.length (trace s2) = 2%nat.
Proof.
  destruct (BacktestIO.backtestAll unit (storeServices mixedStores [] 0)
              ["BTC/USDT"%string] 1 startRun) as [[sts|e|] s1] eqn:E1;
    [|vm_compute in E1; discriminate E1|vm_compute in E1; discriminate E1].
  destruct (BacktestIO.backtest unit (storeServices mixedStores [] 0)
              "ETH/USDT" 1 s1) as [[st|e|] s2] eqn:E2.
  - vm_compute in E1. injection E1 as _ <-. vm_compute in E2. discriminate E2.
  - exists e, s2.
    split; [exact (X18_first_failure_ends_the_run _ _ _ _ _ ["SOL/USDT"%string] _ _ _ _ _ E1 E2)|].
    vm_compute in E1. injection E1 as _ <-. vm_compute in E2. injection E2 as _ <-.
    reflexivity.
  - vm_compute in E1. injection E1 as _ <-. vm_compute in E2. discriminate E2.
Defined.

(** X19. In a round the monitor places two orders at most for each ticker it
    asks for, a round that throws none at all: the market buy and the limit
    sell of [placeOrder], never repeated within the round. *)
